(** * get_iss_position.py: a shallow embedding and its specification

    The script fetches the current position of the ISS over HTTP, checks the
    two coordinates of the JSON payload and prints a response, as JSON or as
    text.  The embedding follows the source function by function.  Library
    calls that are pure and small ([float], [repr], [str], [json.dumps],
    [print]) are modelled by executable definitions in [Module Py]; the
    calls that talk to the outside ([argparse], [urlopen], [json.loads] on
    the body that came back) are answered by a [World]. *)

From Stdlib Require Import List ZArith NArith QArith Qround Bool Lia.
From Stdlib Require Import Ascii String DecimalString.
From Stdlib Require Decimal DecimalFacts DecimalPos.
From Stdlib.Strings Require Import Byte.
From Stdlib Require Import SpecFloat.
Import ListNotations.

Close Scope Q_scope.

(** ** The Python runtime, as far as the script uses it *)

Module Py.

(** *** Text: a [str] is a sequence of Unicode code points *)

Definition str := list N.

(** An ASCII literal of the source, as a [str]. *)
Definition lit (s : string) : str :=
  map N_of_ascii (list_ascii_of_string s).
Arguments lit : simpl never.

Fixpoint str_eqb (a b : str) : bool :=
  match a, b with
  | [], [] => true
  | x :: a', y :: b' => (x =? y)%N && str_eqb a' b'
  | _, _ => false
  end.

(** [sep.join(parts)] *)
Fixpoint join (sep : str) (parts : list str) : str :=
  match parts with
  | [] => []
  | [p] => p
  | p :: rest => p ++ sep ++ join sep rest
  end.

Definition dquote : str := [34%N].
Definition squote : str := [39%N].
Definition newline : str := [10%N].

(** Lower-case hexadecimal, zero-padded to [width] digits:
    ['{0:04x}'.format(n)] is [hex 4 n]. *)
Definition hexdigit (d : N) : N :=
  if (d <? 10)%N then (48 + d)%N else (87 + d)%N.

Fixpoint hex (width : nat) (n : N) : str :=
  match width with
  | O => []
  | S w => hex w (N.shiftr n 4) ++ [hexdigit (N.land n 15)]
  end.

(** *** Floats: IEEE 754 binary64, after the specification of the
    Standard Library *)

Definition float := spec_float.

Definition prec : Z := 53.
Definition emax : Z := 1024.

Definition is_finite (f : float) : bool :=
  match f with
  | S754_zero _ | S754_finite _ _ _ => true
  | S754_infinity _ | S754_nan => false
  end.

(** The value of a float literal [n / d] of the source text, correctly
    rounded ([51.6] is [decimal_literal 516 10]). *)
Definition decimal_literal (n d : Z) : float :=
  SFdiv prec emax (binary_normalize prec emax n 0 false)
                  (binary_normalize prec emax d 0 false).

(** **** [float.__repr__]: the shortest decimal string that rounds back
    to the float, the closest to it among the shortest *)

Section Shortest.
Local Open Scope Q_scope.

Variable m : positive.
Variable e : Z.

Definition Qlt_bool (a b : Q) : bool := negb (Qle_bool b a).

Definition pow2 (k : Z) : Q := Qpower (2 # 1) k.
Definition pow10 (k : Z) : Q := Qpower (10 # 1) k.

Definition value : Q := inject_Z (Zpos m) * pow2 e.

(** Half the distance to the next float above and to the next below; the
    one below is closer when [m] is the smallest normal mantissa. *)
Definition half_gap_up : Q := pow2 (e - 1).
Definition half_gap_down : Q :=
  if (Zpos m =? 2 ^ (prec - 1))%Z && (3 - emax - prec <? e)%Z
  then pow2 (e - 2) else pow2 (e - 1).

(** [v] rounds to the float (ties go to the even mantissa). *)
Definition rounds_here (v : Q) : bool :=
  if Z.even (Zpos m)
  then Qle_bool (value - half_gap_down) v && Qle_bool v (value + half_gap_up)
  else Qlt_bool (value - half_gap_down) v && Qlt_bool v (value + half_gap_up).

(** The least [n] with [value < 10 ^ n]: searched upwards from an
    under-estimate taken from the binary exponent
    ([2 ^ (b - 1) <= value], and [30103 / 100000] approximates
    [log10 2]). *)
Fixpoint decimal_point (fuel : nat) (n : Z) : Z :=
  match fuel with
  | O => n
  | S fuel' => if Qlt_bool value (pow10 n) then n
               else decimal_point fuel' (n + 1)
  end.

Definition decimal_point_start : Z :=
  ((Zpos (digits2_pos m) + e - 1) * 30103 / 100000 - 1)%Z.

(** With [k] significant digits: the two neighbours of [value], the one
    that rounds back, the closer one when both do, and the one with the
    even last digit when both are as close. *)
Definition candidate (n : Z) (k : Z) : option (Z * Z) :=
  let q := (n - k)%Z in
  let s := value / pow10 q in
  let lo := Qfloor s in
  let hi := (lo + 1)%Z in
  let vlo := inject_Z lo * pow10 q in
  let vhi := inject_Z hi * pow10 q in
  match rounds_here vlo, rounds_here vhi with
  | true, true =>
      match Qcompare (value - vlo) (vhi - value) with
      | Lt => Some (lo, q)
      | Gt => Some (hi, q)
      | Eq => if Z.even lo then Some (lo, q) else Some (hi, q)
      end
  | true, false => Some (lo, q)
  | false, true => Some (hi, q)
  | false, false => None
  end.

Fixpoint shortest_from (fuel : nat) (n : Z) (k : Z) : Z * Z :=
  match fuel with
  | O => (Qfloor (value / pow10 (n - k)), (n - k)%Z)
  | S fuel' =>
      match candidate n k with
      | Some c => c
      | None => shortest_from fuel' n (k + 1)
      end
  end.

Fixpoint strip_zeros (fuel : nat) (c q : Z) : Z * Z :=
  match fuel with
  | O => (c, q)
  | S fuel' => if (c mod 10 =? 0)%Z && negb (c =? 0)%Z
               then strip_zeros fuel' (c / 10) (q + 1)
               else (c, q)
  end.

(** The digits and the position of the decimal point:
    the float prints as [0.d1 d2 ... dk * 10 ^ decpt]. *)
Definition shortest_digits : string * Z :=
  let n := decimal_point 8 decimal_point_start in
  let '(c, q) := shortest_from 17 n 1 in
  let '(c, q) := strip_zeros 20 c q in
  let digits := NilZero.string_of_int (Z.to_int c) in
  (digits, (q + Z.of_nat (String.length digits))%Z).
End Shortest.

Fixpoint zeros (n : nat) : string :=
  match n with O => EmptyString | S n' => String "0"%char (zeros n') end.

Definition exponent_text (x : Z) : string :=
  let sign := (if (x <? 0)%Z then "-" else "+")%string in
  let ds := NilZero.string_of_int (Z.to_int (Z.abs x)) in
  (sign ++ (if (String.length ds <? 2)%nat then "0" else EmptyString) ++ ds)%string.

(** The layout of [repr]: exponent notation when [decpt <= -4] or
    [decpt > 16], else positional with at least one digit after the point. *)
Definition layout (digits : string) (decpt : Z) : string :=
  let len := String.length digits in
  if ((decpt <=? -4) || (16 <? decpt))%Z then
    (substring 0 1 digits
       ++ (if (1 <? len)%nat then "." ++ substring 1 (len - 1) digits
           else EmptyString)
       ++ "e" ++ exponent_text (decpt - 1))%string
  else if (decpt <=? 0)%Z then
    ("0." ++ zeros (Z.to_nat (- decpt)) ++ digits)%string
  else if (Z.to_nat decpt <? len)%nat then
    (substring 0 (Z.to_nat decpt) digits ++ "."
       ++ substring (Z.to_nat decpt) (len - Z.to_nat decpt) digits)%string
  else
    (digits ++ zeros (Z.to_nat decpt - len) ++ ".0")%string.

Definition float_repr_ascii (f : float) : string :=
  match f with
  | S754_nan => "nan"%string
  | S754_infinity false => "inf"%string
  | S754_infinity true => "-inf"%string
  | S754_zero false => "0.0"%string
  | S754_zero true => "-0.0"%string
  | S754_finite s m e =>
      let '(digits, decpt) := shortest_digits m e in
      ((if s then "-" else EmptyString) ++ layout digits decpt)%string
  end.

Definition float_repr (f : float) : str := lit (float_repr_ascii f).

(** *** Objects: the values [json.loads] builds and the script handles *)

#[warnings="-register-all"]
Inductive obj : Type :=
  | PyNone
  | PyBool (b : bool)
  | PyInt (n : Z)
  | PyFloat (f : float)
  | PyStr (s : str)
  | PyList (items : list obj)
  | PyDict (items : list (str * obj)).

(** A [dict] keeps its items in insertion order; a key is looked up from the
    front. *)
Definition dict := list (str * obj).

Fixpoint lookup (d : dict) (key : str) : option obj :=
  match d with
  | [] => None
  | (k, v) :: rest => if str_eqb k key then Some v else lookup rest key
  end.

(** [d.get(key, default)] *)
Definition dict_get (d : dict) (key : str) (default : obj) : obj :=
  match lookup d key with
  | Some v => v
  | None => default
  end.

(** [v == s] for a string literal [s]: only an equal [str] is equal. *)
Definition eq_str (v : obj) (s : str) : bool :=
  match v with
  | PyStr t => str_eqb t s
  | _ => false
  end.

(** Numbers: what passes [isinstance(v, (int, float))].  [bool] is a
    subclass of [int], with [True == 1] and [False == 0]. *)
Inductive number : Type :=
  | Int (n : Z)
  | Float (f : float).

Definition as_int_or_float (v : obj) : option number :=
  match v with
  | PyBool b => Some (Int (Z.b2z b))
  | PyInt n => Some (Int n)
  | PyFloat f => Some (Float f)
  | PyNone | PyStr _ | PyList _ | PyDict _ => None
  end.

Definition isinstance_int_float (v : obj) : bool :=
  match as_int_or_float v with Some _ => true | None => false end.

(** *** Exceptions *)

(** The exception classes the script names or can meet, with the one it
    declares itself ([IssApiError], a [RuntimeError]). *)
Inductive exc_class : Type :=
  | BaseException | SystemExit | Exception
  | OSError | ConnectionError | ConnectionResetError | ConnectionRefusedError
  | TimeoutError | gaierror | URLError | HTTPError
  | ValueError | JSONDecodeError | UnicodeError | UnicodeDecodeError
  | ArithmeticError | OverflowError
  | LookupError | KeyError
  | AttributeError | TypeError
  | HTTPException | IncompleteRead
  | RuntimeError | IssApiError.

Definition exc_class_eq_dec (a b : exc_class) : {a = b} + {a <> b}.
Proof. decide equality. Defined.

(** The base class, [None] at the root. *)
Definition base (c : exc_class) : option exc_class :=
  match c with
  | BaseException => None
  | SystemExit | Exception => Some BaseException
  | OSError | ValueError | ArithmeticError | LookupError
  | AttributeError | TypeError | HTTPException | RuntimeError => Some Exception
  | ConnectionError | TimeoutError | gaierror | URLError => Some OSError
  | ConnectionResetError | ConnectionRefusedError => Some ConnectionError
  | HTTPError => Some URLError
  | JSONDecodeError | UnicodeError => Some ValueError
  | UnicodeDecodeError => Some UnicodeError
  | OverflowError => Some ArithmeticError
  | KeyError => Some LookupError
  | IncompleteRead => Some HTTPException
  | IssApiError => Some RuntimeError
  end.

Fixpoint issubclass_upto (depth : nat) (c target : exc_class) : bool :=
  if exc_class_eq_dec c target then true
  else match depth, base c with
       | S depth', Some b => issubclass_upto depth' b target
       | _, _ => false
       end.

(** No class above is more than five steps below the root. *)
Definition issubclass : exc_class -> exc_class -> bool := issubclass_upto 5.

(** An exception: its class and its one argument. *)
Record exn : Type := mkExn { exc_type : exc_class; exc_arg : obj }.

Definition isinstance (e : exn) (c : exc_class) : bool :=
  issubclass (exc_type e) c.

(** *** Results: a value, or an exception on its way up *)

Inductive result (A : Type) : Type :=
  | Return (a : A)
  | Raise (e : exn).
Arguments Return {A} a.
Arguments Raise {A} e.

Definition bind {A B : Type} (r : result A) (k : A -> result B) : result B :=
  match r with
  | Return a => k a
  | Raise e => Raise e
  end.

(** [f] on each item in turn, up to the first that raises. *)
Definition traverse {A B : Type} (f : A -> result B)
  : list A -> result (list B) :=
  fix go (l : list A) : result (list B) :=
    match l with
    | [] => Return []
    | x :: rest =>
        bind (f x) (fun y => bind (go rest) (fun ys => Return (y :: ys)))
    end.

(** *** [int.__repr__] *)

(** The interpreter refuses to write an [int] of more digits than
    [sys.int_info.default_max_str_digits]; the sign does not count. *)
Definition default_max_str_digits : nat := 4300.

Definition decimal_digits (z : Z) : nat :=
  String.length (NilZero.string_of_int (Z.to_int (Z.abs z))).

Definition int_too_long : exn :=
  mkExn ValueError
    (PyStr (lit "Exceeds the limit (4300 digits) for integer string conversion; use sys.set_int_max_str_digits() to increase the limit")).

Definition int_repr (z : Z) : result str :=
  if (default_max_str_digits <? decimal_digits z)%nat then Raise int_too_long
  else Return (lit (NilZero.string_of_int (Z.to_int z))).

(** *** [repr] and [str] *)

Section Text.
(** [str.isprintable] on one code point above ASCII: a table of the
    Unicode database. *)
Variable isprintable : N -> bool.

Definition contains (c : N) (s : str) : bool := existsb (N.eqb c) s.

Definition repr_char (quote : N) (c : N) : str :=
  if (c =? quote)%N || (c =? 92)%N then [92%N; c]
  else if (c =? 9)%N then lit "\t"
  else if (c =? 10)%N then lit "\n"
  else if (c =? 13)%N then lit "\r"
  else if (c <? 32)%N || (c =? 127)%N then lit "\x" ++ hex 2 c
  else if (c <? 127)%N then [c]
  else if isprintable c then [c]
  else if (c <=? 255)%N then lit "\x" ++ hex 2 c
  else if (c <=? 65535)%N then lit "\u" ++ hex 4 c
  else lit "\U" ++ hex 8 c.

(** Single quotes, unless the text has a single quote and no double
    quote. *)
Definition repr_str (s : str) : str :=
  let quote := if contains 39 s && negb (contains 34 s) then 34%N else 39%N in
  [quote] ++ flat_map (repr_char quote) s ++ [quote].

Fixpoint repr (v : obj) : result str :=
  match v with
  | PyNone => Return (lit "None")
  | PyBool true => Return (lit "True")
  | PyBool false => Return (lit "False")
  | PyInt n => int_repr n
  | PyFloat f => Return (float_repr f)
  | PyStr s => Return (repr_str s)
  | PyList items =>
      bind (traverse repr items)
        (fun parts => Return (lit "[" ++ join (lit ", ") parts ++ lit "]"))
  | PyDict items =>
      bind (traverse
              (fun '(k, x) =>
                 bind (repr x) (fun r => Return (repr_str k ++ lit ": " ++ r)))
              items)
        (fun parts => Return (lit "{" ++ join (lit ", ") parts ++ lit "}"))
  end.

(** [str(v)], which is also [format(v, '')], the conversion of an
    f-string field. *)
Definition to_str (v : obj) : result str :=
  match v with
  | PyStr s => Return s
  | _ => repr v
  end.
End Text.

(** *** [json.dumps(v, ensure_ascii=True)], with the default separators
    [', '] and [': '] *)

Definition escape_ascii (c : N) : str :=
  if (c =? 34)%N then [92%N; 34%N]
  else if (c =? 92)%N then [92%N; 92%N]
  else if (c =? 10)%N then lit "\n"
  else if (c =? 13)%N then lit "\r"
  else if (c =? 9)%N then lit "\t"
  else if (c =? 8)%N then lit "\b"
  else if (c =? 12)%N then lit "\f"
  else if (32 <=? c)%N && (c <=? 126)%N then [c]
  else if (c <? 65536)%N then lit "\u" ++ hex 4 c
  else
    let n := (c - 65536)%N in
    let s1 := N.lor 55296 (N.land (N.shiftr n 10) 1023) in
    let s2 := N.lor 56320 (N.land n 1023) in
    lit "\u" ++ hex 4 s1 ++ lit "\u" ++ hex 4 s2.

Definition encode_basestring_ascii (s : str) : str :=
  dquote ++ flat_map escape_ascii s ++ dquote.

Definition floatstr (f : float) : str :=
  match f with
  | S754_nan => lit "NaN"
  | S754_infinity false => lit "Infinity"
  | S754_infinity true => lit "-Infinity"
  | _ => float_repr f
  end.

Fixpoint json_dumps (v : obj) : result str :=
  match v with
  | PyNone => Return (lit "null")
  | PyBool true => Return (lit "true")
  | PyBool false => Return (lit "false")
  | PyInt n => int_repr n
  | PyFloat f => Return (floatstr f)
  | PyStr s => Return (encode_basestring_ascii s)
  | PyList items =>
      bind (traverse json_dumps items)
        (fun parts => Return (lit "[" ++ join (lit ", ") parts ++ lit "]"))
  | PyDict items =>
      bind (traverse
              (fun '(k, x) =>
                 bind (json_dumps x)
                   (fun j => Return (encode_basestring_ascii k ++ lit ": " ++ j)))
              items)
        (fun parts => Return (lit "{" ++ join (lit ", ") parts ++ lit "}"))
  end.

(** *** [float(x)] on a number *)

(** An [int] is rounded to the nearest float, ties to even; one that rounds
    beyond the largest float raises [OverflowError]. *)
Definition float_of_int (n : Z) : option float :=
  match binary_normalize prec emax n 0 false with
  | S754_zero s => Some (S754_zero s)
  | S754_finite s m e => Some (S754_finite s m e)
  | S754_infinity _ | S754_nan => None
  end.

(** [float(x)] for a number [x]. *)
Definition py_float (x : number) : result float :=
  match x with
  | Float f => Return f
  | Int n =>
      match float_of_int n with
      | Some f => Return f
      | None =>
          Raise (mkExn OverflowError
                   (PyStr (lit "int too large to convert to float")))
      end
  end.

(** [d[key]] *)
Definition getitem (d : dict) (key : str) : result obj :=
  match lookup d key with
  | Some v => Return v
  | None => Raise (mkExn KeyError (PyStr key))
  end.

Definition type_name (v : obj) : str :=
  match v with
  | PyNone => lit "NoneType"
  | PyBool _ => lit "bool"
  | PyInt _ => lit "int"
  | PyFloat _ => lit "float"
  | PyStr _ => lit "str"
  | PyList _ => lit "list"
  | PyDict _ => lit "dict"
  end.

(** [v.get(key)]: only a [dict] has the method. *)
Definition get (v : obj) (key : str) : result obj :=
  match v with
  | PyDict d => Return (dict_get d key PyNone)
  | _ =>
      Raise (mkExn AttributeError
               (PyStr (squote ++ type_name v ++ squote
                         ++ lit " object has no attribute 'get'")))
  end.

(** *** The console: what has been written to the two standard streams *)

Record console : Type := mkConsole { stdout : str; stderr : str }.

Definition fresh : console := mkConsole [] [].

Inductive stream : Type := sys_stdout | sys_stderr.

Definition write (file : stream) (text : str) (c : console) : console :=
  match file with
  | sys_stdout => mkConsole (stdout c ++ text) (stderr c)
  | sys_stderr => mkConsole (stdout c) (stderr c ++ text)
  end.

(** A computation that writes and may raise. *)
Definition IO (A : Type) : Type := console -> result A * console.

Definition ret {A : Type} (a : A) : IO A := fun c => (Return a, c).

Definition io_bind {A B : Type} (m : IO A) (k : A -> IO B) : IO B :=
  fun c =>
    match m c with
    | (Return a, c') => k a c'
    | (Raise e, c') => (Raise e, c')
    end.

Definition lift {A : Type} (r : result A) : IO A := fun c => (r, c).

(** [print(v, file=file)]: the text of [v], then a newline; nothing is
    written when [str(v)] raises. *)
Definition print (isprintable : N -> bool) (v : obj) (file : stream)
  : IO unit :=
  io_bind (lift (to_str isprintable v))
    (fun text c => (Return tt, write file (text ++ newline) c)).

(** The exit status the interpreter hands to the operating system: the
    argument of [SystemExit] when it is an [int] (0 when it is [None], 1
    after printing it otherwise), and 1 for any other exception that nobody
    caught.  The script ends in [raise SystemExit(main())]. *)
Definition exit_status (r : result Z) : Z :=
  match r with
  | Return n => n
  | Raise e =>
      if exc_class_eq_dec (exc_type e) SystemExit then
        match exc_arg e with
        | PyInt n => n
        | PyBool b => Z.b2z b
        | PyNone => 0
        | _ => 1
        end
      else 1
  end.

End Py.

Import Py.

Declare Scope py_scope.
Delimit Scope py_scope with py.
Notation "x <- r ;; k" := (bind r (fun x => k))
  (at level 61, r at next level, right associativity) : py_scope.
Notation "x <~ m ;; k" := (io_bind m (fun x => k))
  (at level 61, m at next level, right associativity) : py_scope.
Notation "m ;;; k" := (io_bind m (fun _ => k))
  (at level 61, right associativity) : py_scope.
Local Open Scope py_scope.

(** ** The script *)

Module Iss.

Local Open Scope Z_scope.

Definition API_URL : str := lit "https://api.wheretheiss.at/v1/satellites/25544".
Definition DEFAULT_REQUEST_TIMEOUT : Z := 15.
Definition REQUEST_FAILURE_MESSAGE : str := lit "Failed to retrieve ISS position.".
Definition INVALID_COORDS_MESSAGE : str :=
  lit "ISS API returned invalid latitude/longitude values".

Record IssPosition : Type := mkIssPosition { latitude : float; longitude : float }.

(** [IssApiError(message)] *)
Definition IssApiError_ (message : str) : exn := mkExn IssApiError (PyStr message).

(** *** The outside *)

Definition bytes := list byte.

(** What [parser.add_argument] records. *)
Inductive arg_type : Type := type_str | type_int.

Record argument : Type := mkArgument {
  option_string : str;
  choices : option (list str);
  type : arg_type;
  default : obj }.

Record Namespace : Type := mkNamespace { format : str; timeout : Z }.

(** One run of the script happens in a world that fixes the command line
    and answers the library calls whose result the script does not
    determine. *)
Record World : Type := mkWorld {
  (** [sys.argv[1:]] *)
  argv : list str;
  (** [ArgumentParser.parse_args]: the namespace, or [SystemExit] (status 2
      after a usage error, status 0 after [--help]) *)
  parse_args : list argument -> list str -> result Namespace;
  (** [urllib.request.urlopen(url, timeout=...)] and [response.read()] *)
  urlopen_read : str -> Z -> result bytes;
  (** [json.loads] *)
  json_loads : bytes -> result obj;
  (** the Unicode table behind [repr] *)
  isprintable : N -> bool }.

(** *** Lines 28-44 *)

Definition fetch_current_position (w : World) (timeout : Z)
  : result IssPosition :=
  match (body <- urlopen_read w API_URL timeout ;; json_loads w body) with
  | Raise exc =>
      if isinstance exc URLError || isinstance exc OSError
      then Raise (IssApiError_ REQUEST_FAILURE_MESSAGE)
      else Raise exc
  | Return payload =>
      latitude <- get payload (lit "latitude") ;;
      longitude <- get payload (lit "longitude") ;;
      match as_int_or_float latitude, as_int_or_float longitude with
      | Some lat, Some lon =>
          lat' <- py_float lat ;;
          lon' <- py_float lon ;;
          Return (mkIssPosition lat' lon')
      | _, _ => Raise (IssApiError_ INVALID_COORDS_MESSAGE)
      end
  end.

(** *** Lines 47-59 *)

Definition _success_response (position : IssPosition) : dict :=
  let latitude := latitude position in
  let longitude := longitude position in
  [ (lit "status", PyStr (lit "success"));
    (lit "latitude", PyFloat latitude);
    (lit "longitude", PyFloat longitude);
    (lit "message",
     PyStr (lit "The ISS is currently at latitude " ++ float_repr latitude
              ++ lit " and longitude " ++ float_repr longitude ++ lit ".")) ].

Definition _error_response (message : str) : dict :=
  [ (lit "status", PyStr (lit "error")); (lit "message", PyStr message) ].

(** *** Lines 62-76 *)

Definition parser : list argument :=
  [ mkArgument (lit "--format") (Some [lit "text"; lit "json"]) type_str
      (PyStr (lit "json"));
    mkArgument (lit "--timeout") None type_int (PyInt DEFAULT_REQUEST_TIMEOUT) ].

Definition _parse_args (w : World) : result Namespace :=
  parse_args w parser (argv w).

(** *** Lines 79-89 *)

Definition _emit (w : World) (payload : dict) (output_format : str) : IO unit :=
  if str_eqb output_format (lit "json") then
    line <~ lift (json_dumps (PyDict payload)) ;;
    print (isprintable w) (PyStr line) sys_stdout
  else
    let status := dict_get payload (lit "status") PyNone in
    if eq_str status (lit "success") then
      message <~ lift (getitem payload (lit "message")) ;;
      print (isprintable w) message sys_stdout
    else
      message <~ lift (to_str (isprintable w)
                         (dict_get payload (lit "message")
                            (PyStr (lit "Unknown error")))) ;;
      print (isprintable w) (PyStr (lit "Error: " ++ message)) sys_stderr.

(** *** Lines 92-103 *)

(** The [try] statement of [main] and what follows it, on the result of the
    call in line 96. *)
Definition respond (w : World) (fetched : result IssPosition)
    (output_format : str) : IO Z :=
  match fetched with
  | Return position =>
      let payload := _success_response position in
      _emit w payload output_format ;;;
      ret 0
  | Raise exc =>
      if isinstance exc IssApiError then
        message <~ lift (to_str (isprintable w) (exc_arg exc)) ;;
        let payload := _error_response message in
        _emit w payload output_format ;;;
        ret 1
      else lift (Raise exc)
  end.

Definition main (w : World) : IO Z :=
  args <~ lift (_parse_args w) ;;
  respond w (fetch_current_position w (timeout args)) (format args).

(** Lines 106-107: the status of the process after a run.  (After an
    exception that nobody caught, the interpreter also writes a traceback to
    standard error; the console of [main] does not show it.) *)
Definition run (w : World) : Z := exit_status (fst (main w fresh)).

End Iss.
Import Iss.
Local Open Scope Z_scope.

(** ** The vocabulary of the specification *)

(** [fetch] returns a [Result]: [Success] is a normal return of
    [fetch_current_position], [Failure] is an [IssApiError] it raises. *)
Inductive Result : Type :=
  | Success (position : IssPosition)
  | Failure (message : str).

Definition fetched (r : Result) : result IssPosition :=
  match r with
  | Success position => Return position
  | Failure message => Raise (IssApiError_ message)
  end.

(** The two values of [--format]. *)
Inductive output_format : Type := text | json.

Definition format_name (f : output_format) : str :=
  match f with
  | text => lit "text"
  | json => lit "json"
  end.

(** [emit(result, format)]: what [main] does with the outcome of the fetch. *)
Definition emit (w : World) (r : Result) (f : output_format) : IO Z :=
  respond w (fetched r) (format_name f).

(** What the specification rejects as a coordinate (claim C1), and what the
    test of lines 39-41 rejects. *)
Inductive rejected_by_spec : option obj -> Prop :=
  | spec_missing : rejected_by_spec None
  | spec_string s : rejected_by_spec (Some (PyStr s))
  | spec_boolean b : rejected_by_spec (Some (PyBool b))
  | spec_null : rejected_by_spec (Some PyNone).

Inductive not_a_number : option obj -> Prop :=
  | nan_missing : not_a_number None
  | nan_null : not_a_number (Some PyNone)
  | nan_string s : not_a_number (Some (PyStr s))
  | nan_list items : not_a_number (Some (PyList items))
  | nan_dict items : not_a_number (Some (PyDict items)).

(** The numbers on which [float()] is certainly defined: every float, and
    the ints below [2 ^ 1023] in magnitude. *)
Definition in_float_range (x : number) : Prop :=
  match x with
  | Int n => Z.abs n < 2 ^ 1023
  | Float _ => True
  end.

(** A float of the payload that is an infinity or a NaN. *)
Definition nonfinite (v : obj) : bool :=
  match v with
  | PyFloat f => negb (is_finite f)
  | _ => false
  end.

(** *** Worlds for the examples *)

Definition ascii_bytes (s : str) : bytes :=
  map (fun c => byte_of_ascii (ascii_of_N c)) s.

(** [str.isprintable] on the code points from 128 to 255: all but the C1
    controls, the no-break space and the soft hyphen are printable.  The
    example worlds hold no text beyond 255, where this table answers [false]
    and is not Unicode's. *)
Definition latin1_printable (c : N) : bool :=
  (c <=? 255)%N
  && negb ((128 <=? c)%N && (c <=? 160)%N) && negb (c =? 173)%N.

(** The JSON text of a payload that [json.dumps] can write. *)
Definition json_text (payload : obj) : str :=
  match json_dumps payload with
  | Return line => line
  | Raise _ => []
  end.

Definition defaults : Namespace := mkNamespace (lit "json") DEFAULT_REQUEST_TIMEOUT.

(** The command line is [args], the parser answers [parsed], the request
    answers [response], and [json.loads] answers [loaded]. *)
Definition world (args : list str) (parsed : result Namespace)
    (response : result bytes) (loaded : bytes -> result obj) : World :=
  mkWorld args (fun _ _ => parsed) (fun _ _ => response) loaded
    latin1_printable.

Definition not_json : exn :=
  mkExn JSONDecodeError (PyStr (lit "Expecting value: line 1 column 1 (char 0)")).

(** No arguments; the server answers with the JSON text of [payload], which
    [json.loads] turns back into [payload]. *)
Definition served (payload : obj) : World :=
  world [] (Return defaults) (Return (ascii_bytes (json_text payload)))
    (fun _ => Return payload).

Definition zero : float := S754_zero false.
Definition one : float := S754_finite false 4503599627370496 (-52).

(** [{"latitude": true, "longitude": 0}] *)
Definition boolean_payload : obj :=
  PyDict [ (lit "latitude", PyBool true); (lit "longitude", PyInt 0) ].

(** [{"latitude": 1000...0, "longitude": 0}], with 400 zeros *)
Definition huge_payload : obj :=
  PyDict [ (lit "latitude", PyInt (10 ^ 400)); (lit "longitude", PyInt 0) ].

(** [{"latitude": NaN, "longitude": Infinity}] *)
Definition nan_payload : obj :=
  PyDict [ (lit "latitude", PyFloat S754_nan);
           (lit "longitude", PyFloat (S754_infinity false)) ].

(** [{"latitude": 51.6, "longitude": -0.1}] *)
Definition london : IssPosition :=
  mkIssPosition (decimal_literal 516 10) (decimal_literal (-1) 10).

Definition london_payload : obj :=
  PyDict [ (lit "latitude", PyFloat (latitude london));
           (lit "longitude", PyFloat (longitude london)) ].

(** Lines 37-44, on the payload that [json.loads] returned. *)
Definition validate (payload : obj) : result IssPosition :=
  latitude <- get payload (lit "latitude") ;;
  longitude <- get payload (lit "longitude") ;;
  match as_int_or_float latitude, as_int_or_float longitude with
  | Some lat, Some lon =>
      lat' <- py_float lat ;;
      lon' <- py_float lon ;;
      Return (mkIssPosition lat' lon')
  | _, _ => Raise (IssApiError_ INVALID_COORDS_MESSAGE)
  end.

(** A JSON string literal around ASCII text without quotes or backslashes. *)
Definition quoted (s : string) : str := dquote ++ lit s ++ dquote.

(** What [json.dumps] makes of the success response for [london]. *)
Definition london_line : str :=
  lit "{" ++ quoted "status" ++ lit ": " ++ quoted "success" ++ lit ", "
    ++ quoted "latitude" ++ lit ": 51.6, "
    ++ quoted "longitude" ++ lit ": -0.1, "
    ++ quoted "message" ++ lit ": "
    ++ quoted "The ISS is currently at latitude 51.6 and longitude -0.1."
    ++ lit "}".

(** The same object as the specification spells it, without spaces. *)
Definition london_compact : str :=
  lit "{" ++ quoted "status" ++ lit ":" ++ quoted "success" ++ lit ","
    ++ quoted "latitude" ++ lit ":51.6,"
    ++ quoted "longitude" ++ lit ":-0.1,"
    ++ quoted "message" ++ lit ":"
    ++ quoted "The ISS is currently at latitude 51.6 and longitude -0.1."
    ++ lit "}".

(** [get_iss_position.py --format xml]: the parser refuses [xml], which is
    not among the choices of line 66, and exits with status 2. *)
Definition refused : World :=
  world [ lit "--format"; lit "xml" ]
    (Raise (mkExn SystemExit (PyInt 2)))
    (Return (ascii_bytes (json_text london_payload)))
    (fun _ => Return london_payload).

(** The server closes the connection before the body has the length it
    announced: [response.read()] raises [http.client.IncompleteRead]. *)
Definition incomplete_read : exn :=
  mkExn IncompleteRead
    (PyStr (lit "IncompleteRead(0 bytes read, 512 more expected)")).

Definition cut_short : World :=
  world [] (Return defaults) (Raise incomplete_read)
    (fun _ => Return london_payload).

(** The peer resets the connection during the same [response.read()]. *)
Definition connection_reset : exn :=
  mkExn ConnectionResetError
    (PyStr (lit "[Errno 104] Connection reset by peer")).

Definition reset_while_reading : World :=
  world [] (Return defaults) (Raise connection_reset)
    (fun _ => Return london_payload).




(** Induction on objects, through the lists they hold. *)
Fixpoint obj_nested_ind (P : obj -> Prop)
    (HNone : P PyNone)
    (HBool : forall b, P (PyBool b))
    (HInt : forall n, P (PyInt n))
    (HFloat : forall f, P (PyFloat f))
    (HStr : forall s, P (PyStr s))
    (HList : forall items, Forall P items -> P (PyList items))
    (HDict : forall items, Forall (fun kv => P (snd kv)) items ->
                           P (PyDict items))
    (v : obj) {struct v} : P v :=
  match v with
  | PyNone => HNone
  | PyBool b => HBool b
  | PyInt n => HInt n
  | PyFloat f => HFloat f
  | PyStr s => HStr s
  | PyList items =>
      HList items
        ((fix all (l : list obj) : Forall P l :=
            match l with
            | [] => Forall_nil P
            | x :: l' =>
                Forall_cons x
                  (obj_nested_ind P HNone HBool HInt HFloat HStr HList HDict x)
                  (all l')
            end) items)
  | PyDict items =>
      HDict items
        ((fix all (l : list (str * obj))
            : Forall (fun kv => P (snd kv)) l :=
            match l with
            | [] => Forall_nil _
            | kv :: l' =>
                Forall_cons kv
                  (obj_nested_ind P HNone HBool HInt HFloat HStr HList HDict
                     (snd kv))
                  (all l')
            end) items)
  end.

(** *** What the further properties speak of *)

(** Printable ASCII: from the space to the tilde. *)
Definition printableb (c : N) : bool := (32 <=? c)%N && (c <=? 126)%N.

Definition all_printable (s : str) : bool := forallb printableb s.

Fixpoint printable_string (s : string) : bool :=
  match s with
  | EmptyString => true
  | String a rest => printableb (N_of_ascii a) && printable_string rest
  end.

(** The [try] block of lines 31-33. *)
Definition request (w : World) (t : Z) : result obj :=
  body <- urlopen_read w API_URL t ;; json_loads w body.

(** The library calls of the fetch raise exceptions of their own, never the
    [IssApiError] that the script declares. *)
Definition libraries_raise_their_own (w : World) (t : Z) : Prop :=
  (forall e, urlopen_read w API_URL t = Raise e ->
             isinstance e IssApiError = false)
  /\ (forall body e, json_loads w body = Raise e ->
                     isinstance e IssApiError = false).

(** What the API answers with, next to the two coordinates. *)
Definition full_payload : obj :=
  PyDict [ (lit "name", PyStr (lit "iss"));
           (lit "id", PyInt 25544);
           (lit "latitude", PyFloat (latitude london));
           (lit "longitude", PyFloat (longitude london));
           (lit "altitude", PyFloat (decimal_literal 4193 10));
           (lit "visibility", PyStr (lit "daylight"));
           (lit "units", PyStr (lit "kilometers")) ].

(** [{'status': 'success'}] *)
Definition success_without_message : dict :=
  [ (lit "status", PyStr (lit "success")) ].

(** A message beyond ASCII: an e with acute accent, a line feed, a quote
    and U+1F600. *)
Definition accented : str := [233; 10; 34; 128512]%N.

(** ** Facts about the runtime *)

Lemma str_eqb_eq (a b : str) : str_eqb a b = true <-> a = b.
Proof.
  revert b. induction a as [| x a IH]; intros [| y b]; simpl;
    try (split; [discriminate | discriminate]); [tauto |].
  rewrite andb_true_iff, N.eqb_eq, IH.
  split; [intros [-> ->]; reflexivity | intros H; inversion H; tauto].
Qed.


Lemma dict_get_lookup (d : dict) (key : str) (default v : obj) :
  lookup d key = Some v -> dict_get d key default = v.
Proof. intros H. unfold dict_get. rewrite H. reflexivity. Qed.


Lemma line_not_empty (s : str) : s ++ newline <> [].
Proof. destruct s; discriminate. Qed.

(** *** The digit limit of [int.__repr__] *)

Lemma length_string_of_uint (d : Decimal.uint) :
  String.length (NilEmpty.string_of_uint d) = Decimal.nb_digits d.
Proof. induction d; simpl; congruence. Qed.

Lemma of_lu_upper (d : Decimal.uint) :
  (DecimalPos.Unsigned.of_lu d < 10 ^ N.of_nat (Decimal.nb_digits d))%N.
Proof.
  induction d; cbn [DecimalPos.Unsigned.of_lu Decimal.nb_digits];
    rewrite ?Nat2N.inj_succ, ?N.pow_succ_r'; lia.
Qed.

Lemma usize_nb_digits (d : Decimal.uint) :
  DecimalPos.Unsigned.usize d = N.of_nat (Decimal.nb_digits d).
Proof.
  induction d; cbn [DecimalPos.Unsigned.usize Decimal.nb_digits]; [reflexivity | ..];
    rewrite Nat2N.inj_succ, IHd; reflexivity.
Qed.

(** A numeral that does not start with [0] is at least [10 ^ (digits - 1)]. *)
Lemma of_lu_rev_lower (d : Decimal.uint) :
  Decimal.unorm d = d -> d <> Decimal.zero ->
  (10 ^ N.of_nat (Nat.pred (Decimal.nb_digits d))
   <= DecimalPos.Unsigned.of_lu (Decimal.rev d))%N.
Proof.
  intros Hnorm Hzero.
  destruct d as [| d | d | d | d | d | d | d | d | d | d];
    try (unfold Decimal.rev; cbn [Decimal.revapp Decimal.nb_digits Nat.pred];
         rewrite DecimalPos.Unsigned.of_lu_revapp, usize_nb_digits;
         cbn [DecimalPos.Unsigned.of_lu];
         pose proof (N.le_0_l (DecimalPos.Unsigned.of_lu (Decimal.rev d)));
         set (x := (10 ^ N.of_nat (Decimal.nb_digits d))%N) in *;
         change (10 * 0)%N with 0%N; lia).
  - discriminate.
  - exfalso. rewrite DecimalFacts.unorm_D0 in Hnorm.
    destruct (Decimal.nzhead d) eqn:Hd;
      [unfold Decimal.unorm in Hnorm; rewrite Hd in Hnorm;
       apply Hzero; symmetry; exact Hnorm | ..];
      (apply (DecimalFacts.nzhead_nonzero d d); rewrite <- (DecimalFacts.unorm_nzhead d);
       [exact Hnorm | rewrite Hd; discriminate]).
Qed.

Lemma decimal_digits_pos (p : positive) :
  decimal_digits (Z.pos p) = Decimal.nb_digits (Pos.to_uint p)
  /\ decimal_digits (Z.neg p) = Decimal.nb_digits (Pos.to_uint p).
Proof.
  unfold decimal_digits. cbn [Z.abs Z.to_int NilZero.string_of_int].
  pose proof (DecimalPos.Unsigned.to_uint_nonnil p) as Hnil.
  unfold NilZero.string_of_uint.
  destruct (Pos.to_uint p) eqn:Hp; try contradiction;
    rewrite <- Hp, length_string_of_uint; split; reflexivity.
Qed.

(** The number of digits of [p] is the [k] with
    [10 ^ (k - 1) <= p < 10 ^ k]. *)
Lemma nb_digits_bounds (p : positive) :
  let k := Decimal.nb_digits (Pos.to_uint p) in
  (10 ^ N.of_nat (Nat.pred k) <= N.pos p < 10 ^ N.of_nat k)%N.
Proof.
  intros k. unfold k.
  pose proof (DecimalPos.Unsigned.of_to p) as Hvalue.
  rewrite DecimalPos.Unsigned.of_uint_alt in Hvalue.
  split.
  - rewrite <- Hvalue. apply of_lu_rev_lower.
    + pose proof (DecimalPos.Unsigned.to_of (Pos.to_uint p)) as H.
      rewrite DecimalPos.Unsigned.of_to in H. symmetry. exact H.
    + apply DecimalPos.Unsigned.to_uint_nonzero.
  - rewrite <- Hvalue, <- (DecimalFacts.nb_digits_rev (Pos.to_uint p)).
    apply of_lu_upper.
Qed.

Lemma decimal_digits_bounds (z : Z) :
  z <> 0 ->
  10 ^ Z.of_nat (Nat.pred (decimal_digits z)) <= Z.abs z
  < 10 ^ Z.of_nat (decimal_digits z).
Proof.
  intros Hz.
  assert (H : forall p : positive,
            10 ^ Z.of_nat (Nat.pred (Decimal.nb_digits (Pos.to_uint p)))
            <= Z.pos p < 10 ^ Z.of_nat (Decimal.nb_digits (Pos.to_uint p))).
  { intros p. pose proof (nb_digits_bounds p) as [Hlo Hhi]. cbv zeta in *.
    apply N2Z.inj_le in Hlo. apply N2Z.inj_lt in Hhi.
    rewrite N2Z.inj_pow, nat_N_Z in Hlo, Hhi.
    split; [exact Hlo | exact Hhi]. }
  destruct z as [| p | p]; [contradiction | |];
    destruct (decimal_digits_pos p) as [Hpos Hneg].
  - rewrite Hpos. apply H.
  - rewrite Hneg. apply H.
Qed.

(** An [int] has at most [k] digits exactly when it lies below
    [10 ^ k] in magnitude. *)
Lemma decimal_digits_le (z : Z) (k : nat) :
  (0 < k)%nat ->
  (decimal_digits z <= k)%nat <-> Z.abs z < 10 ^ Z.of_nat k.
Proof.
  intros Hk. destruct (Z.eq_dec z 0) as [-> | Hz].
  - change (decimal_digits 0) with 1%nat. change (Z.abs 0) with 0.
    split; intros _; [apply Z.pow_pos_nonneg; lia | lia].
  - destruct (decimal_digits_bounds z Hz) as [Hlo Hhi]. split.
    + intros Hle. eapply Z.lt_le_trans; [exact Hhi |].
      apply Z.pow_le_mono_r; lia.
    + intros Hlt.
      destruct (Nat.le_gt_cases (decimal_digits z) k) as [| Hgt]; [assumption |].
      exfalso.
      assert (10 ^ Z.of_nat k <= 10 ^ Z.of_nat (Nat.pred (decimal_digits z)))
        by (apply Z.pow_le_mono_r; lia).
      lia.
Qed.

(** [int.__repr__] writes the [int]s below [10 ^ 4300] in magnitude and
    refuses all others. *)
Lemma int_repr_returns (n : Z) :
  Z.abs n < 10 ^ 4300 ->
  int_repr n = Return (lit (NilZero.string_of_int (Z.to_int n))).
Proof.
  intros H. unfold int_repr.
  destruct (Nat.ltb_spec default_max_str_digits (decimal_digits n))
    as [Hlt | Hle]; [| reflexivity].
  exfalso. apply Nat.lt_nge in Hlt. apply Hlt.
  apply (decimal_digits_le n default_max_str_digits);
    [unfold default_max_str_digits; lia |].
  exact H.
Qed.

Lemma int_repr_raises (n : Z) :
  10 ^ 4300 <= Z.abs n -> int_repr n = Raise int_too_long.
Proof.
  intros H. unfold int_repr.
  destruct (Nat.ltb_spec default_max_str_digits (decimal_digits n))
    as [Hlt | Hle]; [reflexivity |].
  exfalso. apply Z.le_ngt in H. apply H.
  apply (decimal_digits_le n default_max_str_digits);
    [unfold default_max_str_digits; lia |].
  exact Hle.
Qed.

Lemma repr_int (isprintable : N -> bool) (n : Z) :
  repr isprintable (PyInt n) = int_repr n.
Proof. reflexivity. Qed.


(** [-10 ** 4299] has 4300 digits, [10 ** 4300] one more. *)
Example int_repr_examples :
  int_repr (-5) = Return (lit "-5")
  /\ int_repr (- 10 ^ 4299)
     = Return (lit (NilZero.string_of_int (Z.to_int (- 10 ^ 4299))))
  /\ int_repr (10 ^ 4300) = Raise int_too_long
  /\ exc_type int_too_long = ValueError.
Proof.
  split; [reflexivity |]. split; [| split; [| reflexivity]].
  - apply int_repr_returns.
    rewrite Z.abs_opp, Z.abs_eq by (apply Z.pow_nonneg; discriminate).
    apply Z.pow_lt_mono_r; [reflexivity | discriminate | reflexivity].
  - apply int_repr_raises.
    rewrite Z.abs_eq by (apply Z.pow_nonneg; discriminate).
    apply Z.le_refl.
Qed.

(** *** The conversions at work *)

Example float_repr_examples :
  map float_repr_ascii
    [ decimal_literal 516 10; decimal_literal (-1) 10;
      decimal_literal 1 10000; decimal_literal 1 100000;
      decimal_literal 1 3; decimal_literal 100 1;
      decimal_literal (10 ^ 16 - 2) 1; decimal_literal (10 ^ 16) 1;
      binary_normalize prec emax (10 ^ 23) 0 false;
      S754_finite false 1 (-1074);
      S754_finite false (2 ^ 53 - 1) 971 ]
  = [ "51.6"; "-0.1"; "0.0001"; "1e-05"; "0.3333333333333333"; "100.0";
      "9999999999999998.0"; "1e+16"; "1e+23"; "5e-324";
      "1.7976931348623157e+308" ]%string.
Proof. vm_compute. reflexivity. Qed.

(** Floats half way between two decimals of seventeen digits: the last
    digit is the even one. *)
Example float_repr_ties :
  map float_repr_ascii
    [ decimal_literal (20 * 2 ^ 16 + 3) (2 ^ 16);
      decimal_literal (100 * 2 ^ 16 + 6) (2 ^ 16);
      decimal_literal (- (4 * 1596385050903412 + 3)) 4;
      decimal_literal (4 * 900000000000000 + 3) 4 ]
  = [ "20.000045776367188"; "100.00009155273438";
      "-1596385050903412.8"; "900000000000000.8" ]%string.
Proof. vm_compute. reflexivity. Qed.

Example float_of_int_examples :
  float_of_int 1 = Some one
  /\ float_of_int (2 ^ 53 + 1) = Some (S754_finite false (2 ^ 52) 1)
  /\ float_of_int (2 ^ 1024 - 2 ^ 970 - 1)
     = Some (S754_finite false (2 ^ 53 - 1) 971)
  /\ float_of_int (2 ^ 1024 - 2 ^ 970) = None.
Proof. repeat split; vm_compute; reflexivity. Qed.

Example json_dumps_example :
  json_dumps (PyDict [ (lit "a", PyStr ([233; 10; 128512; 92]%N));
                       (lit "b", PyList [ PyInt (-5); PyNone; PyBool true;
                                          PyFloat S754_nan ]) ])
  = Return (lit "{" ++ quoted "a" ++ lit ": "
              ++ dquote ++ lit "\u00e9\n\ud83d\ude00\\" ++ dquote ++ lit ", "
              ++ quoted "b" ++ lit ": [-5, null, true, NaN]}").
Proof. vm_compute. reflexivity. Qed.

Example repr_example :
  repr latin1_printable
    (PyList [ PyStr (lit "it's"); PyStr ([233; 10; 160]%N); PyNone;
              PyFloat (decimal_literal 15 10) ])
  = Return (lit "[" ++ dquote ++ lit "it's" ++ dquote ++ lit ", '"
              ++ [233%N] ++ lit "\n\xa0', None, 1.5]").
Proof. vm_compute. reflexivity. Qed.

(** *** Which exceptions the two handlers catch *)

(** A [ValueError] is none of the classes that lines 34 and 97 catch. *)
Lemma ValueError_not_caught (c : exc_class) :
  issubclass c ValueError = true ->
  issubclass c URLError = false
  /\ issubclass c OSError = false
  /\ issubclass c IssApiError = false.
Proof. destruct c; try discriminate; intros _; repeat split. Qed.

(** Nor is the exception of [http.client] for a body that ends early. *)
Lemma IncompleteRead_not_caught :
  issubclass IncompleteRead URLError = false
  /\ issubclass IncompleteRead OSError = false.
Proof. split; reflexivity. Qed.

Lemma uncaught_exit_status (e : exn) :
  exc_type e <> SystemExit -> exit_status (Raise e) = 1.
Proof.
  intros H. unfold exit_status.
  destruct (exc_class_eq_dec (exc_type e) SystemExit); [contradiction |].
  reflexivity.
Qed.

(** *** [float()] on an [int] *)

Lemma digits2_log2 (p : positive) :
  Zpos (digits2_pos p) = Z.log2 (Zpos p) + 1.
Proof.
  induction p as [p IH | p IH |]; simpl digits2_pos.
  - rewrite Pos2Z.inj_succ, IH.
    change (Zpos p~1) with (2 * Zpos p + 1).
    rewrite Z.log2_succ_double by lia. lia.
  - rewrite Pos2Z.inj_succ, IH.
    change (Zpos p~0) with (2 * Zpos p).
    rewrite Z.log2_double by lia. lia.
  - reflexivity.
Qed.

Lemma Zdigits2_log2 (m : Z) : 0 < m -> Zdigits2 m = Z.log2 m + 1.
Proof.
  destruct m as [| p | p]; try lia. intros _. apply digits2_log2.
Qed.

Lemma shr_1_halves (r : shr_record) :
  0 <= shr_m r -> shr_m (shr_1 r) = shr_m r / 2.
Proof.
  destruct r as [m rb sb]. simpl. intros H.
  destruct m as [| p | p]; [reflexivity | | lia].
  destruct p as [p | p |]; simpl shr_m.
  - change (Zpos p~1) with (2 * Zpos p + 1).
    apply Z.div_unique with (r := 1); lia.
  - change (Zpos p~0) with (2 * Zpos p).
    apply Z.div_unique with (r := 0); lia.
  - reflexivity.
Qed.

Lemma iter_pos_comm {A : Type} (f : A -> A) (p : positive) (x : A) :
  iter_pos f p (f x) = f (iter_pos f p x).
Proof.
  revert x. induction p as [p IH | p IH |]; intros x; simpl.
  - rewrite !IH. reflexivity.
  - rewrite !IH. reflexivity.
  - reflexivity.
Qed.

Lemma iter_pos_succ {A : Type} (f : A -> A) (p : positive) (x : A) :
  iter_pos f (Pos.succ p) x = iter_pos f p (f x).
Proof.
  revert x. induction p as [p IH | p IH |]; intros x; simpl.
  - rewrite !IH, !iter_pos_comm. reflexivity.
  - reflexivity.
  - reflexivity.
Qed.

Lemma iter_shr_1_divides (k : positive) (r : shr_record) :
  0 <= shr_m r -> shr_m (iter_pos shr_1 k r) = shr_m r / 2 ^ Zpos k.
Proof.
  revert r. induction k as [| k IH] using Pos.peano_ind; intros r H.
  - simpl iter_pos. rewrite shr_1_halves by exact H. reflexivity.
  - rewrite iter_pos_succ, IH.
    + rewrite shr_1_halves by exact H.
      rewrite Pos2Z.inj_succ, Z.pow_succ_r by lia.
      rewrite Z.div_div by lia. reflexivity.
    + rewrite shr_1_halves by exact H. apply Z.div_pos; lia.
Qed.

Lemma log2_shifted (m k : Z) :
  0 < m -> 0 <= k -> k <= Z.log2 m -> Z.log2 (m / 2 ^ k) = Z.log2 m - k.
Proof.
  intros Hm Hk Hle.
  rewrite <- Z.shiftr_div_pow2 by lia.
  rewrite Z.log2_shiftr by lia. lia.
Qed.

Lemma shifted_positive (m k : Z) :
  0 < m -> 0 <= k <= Z.log2 m -> 0 < m / 2 ^ k.
Proof.
  intros Hm Hk. apply Z.div_str_pos. split; [lia |].
  apply Z.le_trans with (2 ^ Z.log2 m).
  - apply Z.pow_le_mono_r; lia.
  - apply Z.log2_spec; exact Hm.
Qed.

Lemma shr_m_of_loc (m : Z) (l : location) :
  shr_m (shr_record_of_loc m l) = m.
Proof. destruct l as [| []]; reflexivity. Qed.

Lemma round_nearest_even_bounds (m : Z) (l : location) :
  m <= round_nearest_even m l <= m + 1.
Proof.
  destruct l as [| []]; simpl; try lia. destruct (Z.even m); lia.
Qed.

(** One rounding step: the mantissa stays positive, keeps at most 53 bits,
    and the exponent grows by the number of bits that were dropped. *)
Lemma shr_fexp_spec (m e : Z) (l : location) :
  0 < m -> -1074 <= e ->
  0 < shr_m (fst (shr_fexp prec emax m e l))
  /\ Z.log2 (shr_m (fst (shr_fexp prec emax m e l))) = Z.min 52 (Z.log2 m)
  /\ snd (shr_fexp prec emax m e l) = e + Z.max 0 (Z.log2 m - 52).
Proof.
  intros Hm He. unfold shr_fexp, shr, fexp, emin, prec, emax.
  rewrite (Zdigits2_log2 m Hm).
  pose proof (Z.log2_nonneg m) as Hlog0.
  destruct (Z.max (Z.log2 m + 1 + e - 53) (3 - 1024 - 53) - e)
    as [| k | k] eqn:Hk; cbn [fst snd].
  - rewrite shr_m_of_loc. repeat split; lia.
  - assert (Hk' : Zpos k = Z.log2 m - 52) by lia.
    rewrite iter_shr_1_divides by (rewrite shr_m_of_loc; lia).
    rewrite shr_m_of_loc.
    split; [apply shifted_positive; lia |].
    split; [rewrite log2_shifted by lia; lia | lia].
  - rewrite shr_m_of_loc. repeat split; lia.
Qed.

Lemma binary_round_aux_finite (sx : bool) (m e : Z) (l : location) :
  0 < m -> -1074 <= e <= 970 -> Z.log2 m + e <= 1022 ->
  exists m' e', binary_round_aux prec emax sx m e l = S754_finite sx m' e'.
Proof.
  intros Hm He Hbound. unfold binary_round_aux.
  pose proof (shr_fexp_spec m e l Hm (proj1 He)) as (Hpos1 & Hlog1 & He1).
  destruct (shr_fexp prec emax m e l) as [r1 e1]. cbn [fst snd] in *.
  pose proof (round_nearest_even_bounds (shr_m r1) (loc_of_shr_record r1))
    as Hrne.
  set (m1 := round_nearest_even (shr_m r1) (loc_of_shr_record r1)) in *.
  assert (Hm1 : 0 < m1) by lia.
  assert (Hlogm1 : Z.log2 m1 <= 53).
  { assert (Hlt : shr_m r1 < 2 ^ 53) by (apply Z.log2_lt_pow2; lia).
    rewrite <- (Z.log2_pow2 53) by lia.
    apply Z.log2_le_mono. lia. }
  pose proof (shr_fexp_spec m1 e1 loc_Exact Hm1 ltac:(lia))
    as (Hpos2 & Hlog2 & He2).
  destruct (shr_fexp prec emax m1 e1 loc_Exact) as [r2 e2].
  cbn [fst snd] in *.
  destruct (shr_m r2) as [| p | p]; try lia.
  unfold emax, prec.
  replace (e2 <=? 1024 - 53) with true by (symmetry; apply Z.leb_le; lia).
  eauto.
Qed.

Lemma iter_xO_value (p k : positive) :
  Zpos (Pos.iter xO p k) = Zpos p * 2 ^ Zpos k.
Proof.
  induction k as [| k IH] using Pos.peano_ind.
  - simpl. lia.
  - rewrite Pos.iter_succ, Pos2Z.inj_succ, Z.pow_succ_r by lia.
    change (Zpos (Pos.iter xO p k)~0) with (2 * Zpos (Pos.iter xO p k)).
    rewrite IH. lia.
Qed.

Lemma binary_round_finite (sx : bool) (mx : positive) :
  Zpos mx < 2 ^ 1023 ->
  exists m e, binary_round prec emax sx mx 0 = S754_finite sx m e.
Proof.
  intros Hlt. unfold binary_round, shl_align, fexp, emin.
  rewrite digits2_log2.
  assert (Hlog : Z.log2 (Zpos mx) < 1023) by (apply Z.log2_lt_pow2; lia).
  pose proof (Z.log2_nonneg (Zpos mx)) as Hlog0.
  cbv [prec emax].
  destruct (Z.max (Z.log2 (Zpos mx) + 1 + 0 - 53) (3 - 1024 - 53) - 0)
    as [| k | k] eqn:Hk.
  - apply binary_round_aux_finite; lia.
  - apply binary_round_aux_finite; lia.
  - apply binary_round_aux_finite; [lia | lia |].
    rewrite iter_xO_value, Z.log2_mul_pow2 by lia. lia.
Qed.

(** No [int] below [2 ^ 1023] in magnitude overflows. *)
Lemma float_of_int_defined (n : Z) :
  Z.abs n < 2 ^ 1023 -> exists f, float_of_int n = Some f.
Proof.
  intros Hn. unfold float_of_int, binary_normalize.
  destruct n as [| p | p].
  - eauto.
  - destruct (binary_round_finite false p) as (m & e & ->); [lia | eauto].
  - destruct (binary_round_finite true p) as (m & e & ->); [lia | eauto].
Qed.

Lemma py_float_defined (x : number) :
  in_float_range x -> exists f, py_float x = Return f.
Proof.
  destruct x as [n | f]; simpl; intros H; [| eauto].
  destruct (float_of_int_defined n H) as (f & ->). eauto.
Qed.

Lemma float_of_int_finite (n : Z) (f : float) :
  float_of_int n = Some f -> is_finite f = true.
Proof.
  unfold float_of_int.
  destruct (binary_normalize prec emax n 0 false); intros H;
    inversion H; reflexivity.
Qed.

Lemma py_float_raises_overflow (x : number) (e : exn) :
  py_float x = Raise e -> exc_type e = OverflowError.
Proof.
  destruct x as [n | f]; simpl; [| discriminate].
  destruct (float_of_int n); [discriminate |].
  intros H. inversion H. reflexivity.
Qed.

Lemma py_float_finite (v : obj) (x : number) (f : float) :
  as_int_or_float v = Some x ->
  py_float x = Return f ->
  is_finite f = negb (nonfinite v).
Proof.
  destruct v as [| b | n | g | s | items | items]; simpl; try discriminate;
    intros Hx; inversion Hx; subst x; simpl.
  - destruct (float_of_int (Z.b2z b)) eqn:E; [| discriminate].
    intros H; inversion H; subst. apply (float_of_int_finite _ _ E).
  - destruct (float_of_int n) eqn:E; [| discriminate].
    intros H; inversion H; subst. apply (float_of_int_finite _ _ E).
  - intros H; inversion H; subst. destruct (is_finite f); reflexivity.
Qed.

(** ** The fetch *)

(** What the [except] clause of line 34 does with an exception of the
    [try] block. *)
Lemma fetch_raised (w : World) (t : Z) (e : exn) :
  (body <- urlopen_read w API_URL t ;; json_loads w body) = Raise e ->
  fetch_current_position w t =
    if isinstance e URLError || isinstance e OSError
    then Raise (IssApiError_ REQUEST_FAILURE_MESSAGE)
    else Raise e.
Proof.
  intros Htry. unfold fetch_current_position. rewrite Htry. reflexivity.
Qed.

Lemma not_a_number_rejected (d : dict) (key : str) :
  not_a_number (lookup d key) ->
  as_int_or_float (dict_get d key PyNone) = None.
Proof.
  intros H. unfold dict_get.
  inversion H as [Heq | Heq | s Heq | items Heq | items Heq]; reflexivity.
Qed.

Lemma validate_numbers (d : dict) (vx vy : obj) (x y : number) :
  lookup d (lit "latitude") = Some vx ->
  lookup d (lit "longitude") = Some vy ->
  as_int_or_float vx = Some x ->
  as_int_or_float vy = Some y ->
  validate (PyDict d) =
    (fx <- py_float x ;; fy <- py_float y ;; Return (mkIssPosition fx fy)).
Proof.
  intros Hx Hy Hnx Hny. unfold validate. simpl.
  rewrite (dict_get_lookup _ _ PyNone _ Hx), (dict_get_lookup _ _ PyNone _ Hy).
  rewrite Hnx, Hny. reflexivity.
Qed.

(** The request is answered with [body], in which [json.loads] finds the
    object [d]. *)
Section Answered.

Variable w : World.
Variable t : Z.
Variable body : bytes.
Variable d : dict.

Hypothesis Hbody : urlopen_read w API_URL t = Return body.
Hypothesis Hloads : json_loads w body = Return (PyDict d).

Lemma fetch_loaded : fetch_current_position w t = validate (PyDict d).
Proof.
  unfold fetch_current_position.
  rewrite Hbody. simpl. rewrite Hloads. reflexivity.
Qed.

(** C1 (as amended).  When the payload is an object in which [latitude] or
    [longitude] is missing, or in which either value is a string or null
    (or a list, or an object), the fetch fails with the invalid-coordinates
    message and never succeeds. *)
Theorem fetch_rejects_non_numbers :
  not_a_number (lookup d (lit "latitude"))
  \/ not_a_number (lookup d (lit "longitude")) ->
  fetch_current_position w t = fetched (Failure INVALID_COORDS_MESSAGE)
  /\ forall p : IssPosition,
       fetch_current_position w t <> fetched (Success p).
Proof.
  intros H.
  assert (Hfail : fetch_current_position w t
                  = fetched (Failure INVALID_COORDS_MESSAGE)).
  { rewrite fetch_loaded. unfold validate. simpl.
    destruct H as [H | H]; rewrite (not_a_number_rejected _ _ H).
    - reflexivity.
    - destruct (as_int_or_float (dict_get d (lit "latitude") PyNone));
        reflexivity. }
  split; [exact Hfail |].
  intros p. rewrite Hfail. discriminate.
Qed.

(** C6 (as amended).  A position that the fetch returns holds two floats,
    each of them finite whenever the payload has an [int], a [bool] or a
    finite float at that key.  No range is checked: any two floats of the
    payload, whatever their size, are returned as they are. *)
Theorem fetch_position_finite :
  (forall p : IssPosition,
     fetch_current_position w t = Return p ->
     (nonfinite (dict_get d (lit "latitude") PyNone) = false ->
      is_finite (latitude p) = true)
     /\ (nonfinite (dict_get d (lit "longitude") PyNone) = false ->
         is_finite (longitude p) = true))
  /\ (forall fx fy : float,
        lookup d (lit "latitude") = Some (PyFloat fx) ->
        lookup d (lit "longitude") = Some (PyFloat fy) ->
        fetch_current_position w t = Return (mkIssPosition fx fy)).
Proof.
  rewrite fetch_loaded. split.
  - intros p. unfold validate. simpl.
    destruct (as_int_or_float (dict_get d (lit "latitude") PyNone))
      as [x |] eqn:Hx; [| discriminate].
    destruct (as_int_or_float (dict_get d (lit "longitude") PyNone))
      as [y |] eqn:Hy; [| discriminate].
    destruct (py_float x) as [fx | ex] eqn:Hfx; [| discriminate].
    destruct (py_float y) as [fy | ey] eqn:Hfy; [| discriminate].
    simpl. intros H. inversion H. simpl. split; intros Hfin.
    + rewrite (py_float_finite _ _ _ Hx Hfx), Hfin. reflexivity.
    + rewrite (py_float_finite _ _ _ Hy Hfy), Hfin. reflexivity.
  - intros fx fy Hx Hy.
    rewrite (validate_numbers _ _ _ _ _ Hx Hy eq_refl eq_refl). reflexivity.
Qed.

(** Both coordinates are there, and both are numbers. *)
Section Numbers.

Variables vx vy : obj.
Variables x y : number.

Hypothesis Hx : lookup d (lit "latitude") = Some vx.
Hypothesis Hy : lookup d (lit "longitude") = Some vy.
Hypothesis Hnx : as_int_or_float vx = Some x.
Hypothesis Hny : as_int_or_float vy = Some y.

Lemma fetch_numbers :
  fetch_current_position w t =
    (fx <- py_float x ;; fy <- py_float y ;; Return (mkIssPosition fx fy)).
Proof.
  rewrite fetch_loaded. apply (validate_numbers _ _ _ _ _ Hx Hy Hnx Hny).
Qed.

(** What an [int] beyond the float range does to the fetch. *)
Lemma fetch_float_overflow (e : exn) :
  py_float x = Raise e
  \/ (exists fx, py_float x = Return fx /\ py_float y = Raise e) ->
  fetch_current_position w t = Raise e /\ exc_type e = OverflowError.
Proof.
  rewrite fetch_numbers. intros [He | [fx [Hfx He]]].
  - split; [rewrite He; reflexivity |].
    apply (py_float_raises_overflow _ _ He).
  - split; [rewrite Hfx; simpl; rewrite He; reflexivity |].
    apply (py_float_raises_overflow _ _ He).
Qed.

(** C2 (as amended).  When both coordinates of the payload are numbers
    (an [int], a [float], or a [bool] taken as an [int]) on which [float()]
    is defined, the fetch succeeds with exactly the two converted values,
    and does not fail.  [float()] is defined on every float, which it
    returns unchanged, and on every [int] below [2 ^ 1023] in magnitude. *)
Theorem fetch_converts_numbers :
  (forall fx fy : float,
     py_float x = Return fx -> py_float y = Return fy ->
     fetch_current_position w t = fetched (Success (mkIssPosition fx fy)))
  /\ (in_float_range x -> in_float_range y ->
      exists fx fy : float,
        py_float x = Return fx /\ py_float y = Return fy
        /\ fetch_current_position w t
           = fetched (Success (mkIssPosition fx fy)))
  /\ (forall fx fy : float,
        vx = PyFloat fx -> vy = PyFloat fy ->
        fetch_current_position w t = fetched (Success (mkIssPosition fx fy))).
Proof.
  rewrite fetch_numbers. split; [| split].
  - intros fx fy Hfx Hfy. rewrite Hfx. simpl. rewrite Hfy. reflexivity.
  - intros Hrx Hry.
    destruct (py_float_defined x Hrx) as (fx & Hfx).
    destruct (py_float_defined y Hry) as (fy & Hfy).
    exists fx, fy. rewrite Hfx. simpl. rewrite Hfy. auto.
  - intros fx fy Hvx Hvy. rewrite Hvx in Hnx. rewrite Hvy in Hny.
    simpl in Hnx, Hny. inversion Hnx; inversion Hny. reflexivity.
Qed.

End Numbers.

End Answered.

(** A payload without coordinates is rejected. *)
Lemma fetch_rejects_non_numbers_witness :
  lookup [] (lit "latitude") = None
  /\ fetch_current_position (served (PyDict [])) 15
     = Raise (IssApiError_ INVALID_COORDS_MESSAGE).
Proof.
  split; [reflexivity |].
  apply (proj1 (fetch_rejects_non_numbers (served (PyDict [])) 15
                  (ascii_bytes (json_text (PyDict []))) [] eq_refl eq_refl
                  (or_introl nan_missing))).
Defined.

(** C1 (as stated) fails on [{"latitude": true, "longitude": 0}]: the
    latitude is a boolean, and the fetch succeeds with latitude 1.0. *)
Lemma fetch_accepts_boolean :
  rejected_by_spec (lookup [ (lit "latitude", PyBool true);
                             (lit "longitude", PyInt 0) ] (lit "latitude"))
  /\ json_loads (served boolean_payload)
       (ascii_bytes (json_text boolean_payload)) = Return boolean_payload
  /\ fetch_current_position (served boolean_payload) 15
     = Return (mkIssPosition one zero)
  /\ fetch_current_position (served boolean_payload) 15
     <> fetched (Failure INVALID_COORDS_MESSAGE).
Proof.
  split; [apply spec_boolean |].
  split; [reflexivity |].
  split; [reflexivity |].
  discriminate.
Qed.

(** The payload [{"latitude": 51.6, "longitude": -0.1}]. *)
Lemma fetch_converts_numbers_witness :
  urlopen_read (served london_payload) API_URL 15
    = Return (ascii_bytes (json_text london_payload))
  /\ fetch_current_position (served london_payload) 15 = Return london.
Proof.
  split; [reflexivity |].
  apply (proj1 (fetch_converts_numbers (served london_payload) 15
                  (ascii_bytes (json_text london_payload))
                  [ (lit "latitude", PyFloat (latitude london));
                    (lit "longitude", PyFloat (longitude london)) ]
                  eq_refl eq_refl
                  (PyFloat (latitude london)) (PyFloat (longitude london))
                  (Float (latitude london)) (Float (longitude london))
                  eq_refl eq_refl eq_refl eq_refl)
           (latitude london) (longitude london) eq_refl eq_refl).
Defined.

(** C2 (as stated) fails on [{"latitude": 10 ** 400, "longitude": 0}]: both
    values are numbers, and the fetch raises [OverflowError]. *)
Lemma fetch_overflows_on_huge_int :
  isinstance_int_float (PyInt (10 ^ 400)) = true
  /\ isinstance_int_float (PyInt 0) = true
  /\ json_loads (served huge_payload)
       (ascii_bytes (json_text huge_payload)) = Return huge_payload
  /\ fetch_current_position (served huge_payload) 15
     = Raise (mkExn OverflowError
                (PyStr (lit "int too large to convert to float")))
  /\ forall p : IssPosition,
       fetch_current_position (served huge_payload) 15 <> fetched (Success p).
Proof.
  split; [reflexivity |].
  split; [reflexivity |].
  split; [reflexivity |].
  assert (H : fetch_current_position (served huge_payload) 15
              = Raise (mkExn OverflowError
                         (PyStr (lit "int too large to convert to float"))))
    by (vm_compute; reflexivity).
  split; [exact H |].
  intros p. rewrite H. discriminate.
Qed.

(** A latitude of 1000 is returned as it is. *)
Lemma fetch_position_finite_witness :
  fetch_current_position
    (served (PyDict [ (lit "latitude", PyFloat (decimal_literal 1000 1));
                      (lit "longitude", PyFloat (decimal_literal (-1) 10)) ])) 15
  = Return (mkIssPosition (decimal_literal 1000 1) (decimal_literal (-1) 10)).
Proof.
  apply (proj2 (fetch_position_finite
                  (served (PyDict [ (lit "latitude", PyFloat (decimal_literal 1000 1));
                                    (lit "longitude", PyFloat (decimal_literal (-1) 10)) ]))
                  15 _ _ eq_refl eq_refl)
           (decimal_literal 1000 1) (decimal_literal (-1) 10) eq_refl eq_refl).
Defined.

(** C6 (as stated) fails on [{"latitude": NaN, "longitude": Infinity}]: the
    fetch succeeds with a NaN and an infinity. *)
Lemma fetch_returns_nan :
  json_loads (served nan_payload) (ascii_bytes (json_text nan_payload))
    = Return nan_payload
  /\ fetch_current_position (served nan_payload) 15
     = fetched (Success (mkIssPosition S754_nan (S754_infinity false)))
  /\ is_finite S754_nan = false
  /\ is_finite (S754_infinity false) = false.
Proof. repeat split; reflexivity. Qed.

(** What line 34 catches is reported as a request failure. *)
Lemma fetch_catches (w : World) (t : Z) (e : exn) :
  urlopen_read w API_URL t = Raise e ->
  isinstance e URLError || isinstance e OSError = true ->
  fetch_current_position w t = fetched (Failure REQUEST_FAILURE_MESSAGE).
Proof.
  intros Hraise Hclass.
  assert (Htry : (body <- urlopen_read w API_URL t ;; json_loads w body)
                 = Raise e) by (rewrite Hraise; reflexivity).
  rewrite (fetch_raised _ _ _ Htry), Hclass. reflexivity.
Qed.

(** C3 (the code misses a case).  When the server closes the connection
    before the body is complete, [response.read()] raises
    [http.client.IncompleteRead], which is no [OSError]: the fetch lets it
    through instead of failing with the request-failure message, and [main]
    prints nothing.  A connection that the peer resets during the same read
    is reported as the claim says. *)
Theorem fetch_incomplete_read_escapes :
  urlopen_read cut_short API_URL 15 = Raise incomplete_read
  /\ fetch_current_position cut_short 15 = Raise incomplete_read
  /\ fetch_current_position cut_short 15
     <> fetched (Failure REQUEST_FAILURE_MESSAGE)
  /\ main cut_short fresh = (Raise incomplete_read, fresh)
  /\ run cut_short = 1
  /\ fetch_current_position reset_while_reading 15
     = fetched (Failure REQUEST_FAILURE_MESSAGE).
Proof.
  split; [reflexivity |].
  split; [reflexivity |].
  split; [discriminate |].
  split; [reflexivity |].
  split; [reflexivity |].
  apply (fetch_catches reset_while_reading 15 connection_reset eq_refl).
  reflexivity.
Qed.

(** C7.  When the body is not a JSON document, [json.loads] raises a
    [JSONDecodeError], or a [UnicodeDecodeError] when the bytes are not
    text: a [ValueError] either way.  It leaves the fetch as it is: line 34
    does not catch it, the fetch returns neither a [Success] nor a
    [Failure], and [main] prints nothing and lets it through. *)
Theorem fetch_malformed_json_propagates (w : World) (t : Z) (body : bytes)
    (e : exn) :
  urlopen_read w API_URL t = Return body ->
  json_loads w body = Raise e ->
  isinstance e ValueError = true ->
  fetch_current_position w t = Raise e
  /\ (forall r : Result, fetch_current_position w t <> fetched r)
  /\ (forall (f : str) (c : console),
        respond w (fetch_current_position w t) f c = (Raise e, c)).
Proof.
  intros Hbody Hloads Hclass.
  destruct (ValueError_not_caught _ Hclass) as (Hurl & Hos & Hiss).
  assert (Htry : (body <- urlopen_read w API_URL t ;; json_loads w body)
                 = Raise e) by (rewrite Hbody; simpl; exact Hloads).
  assert (Hfetch : fetch_current_position w t = Raise e).
  { rewrite (fetch_raised _ _ _ Htry). unfold isinstance.
    rewrite Hurl, Hos. reflexivity. }
  rewrite Hfetch. split; [reflexivity |]. split.
  - intros [p | m]; simpl; [discriminate |].
    intros H. inversion H as [He]. rewrite He in Hiss. discriminate.
  - intros f c. unfold respond, isinstance. rewrite Hiss. reflexivity.
Qed.

(** The server answers with an HTML page. *)
Lemma fetch_malformed_json_propagates_witness :
  fetch_current_position
    (world [] (Return defaults) (Return (ascii_bytes (lit "<html></html>")))
       (fun _ => Raise not_json)) 15
  = Raise not_json.
Proof.
  apply (proj1 (fetch_malformed_json_propagates
                  (world [] (Return defaults)
                     (Return (ascii_bytes (lit "<html></html>")))
                     (fun _ => Raise not_json))
                  15 (ascii_bytes (lit "<html></html>")) not_json
                  eq_refl eq_refl eq_refl)).
Defined.

(** ** The output *)

(** *** What the conversions to text can raise *)

Lemma traverse_raised {A B : Type} (f : A -> result B) (l : list A)
    (e : exn) :
  traverse f l = Raise e -> exists x, In x l /\ f x = Raise e.
Proof.
  induction l as [| x l IH]; simpl; [discriminate |].
  destruct (f x) as [y | e'] eqn:Hx; simpl.
  - destruct (traverse f l) as [ys | e'']; simpl; [discriminate |].
    intros H. destruct (IH H) as (x' & Hin & Hx').
    exists x'. split; [right; exact Hin | exact Hx'].
  - intros H. exists x. split; [left; reflexivity |].
    inversion H. subst e'. exact Hx.
Qed.


Lemma int_repr_raised (n : Z) (e : exn) :
  int_repr n = Raise e -> exc_type e = ValueError.
Proof.
  unfold int_repr. destruct (_ <? _)%nat; intros H; inversion H.
  reflexivity.
Qed.


(** [repr], and so [str], raises nothing but the [ValueError] of an [int]
    that is too long. *)
Lemma repr_raised (isprintable : N -> bool) (v : obj) (e : exn) :
  repr isprintable v = Raise e -> exc_type e = ValueError.
Proof.
  revert e.
  induction v as [| [] | n | f | s | items IH | items IH]
    using obj_nested_ind; intros e; cbn [repr]; try discriminate.
  - apply int_repr_raised.
  - destruct (traverse (repr isprintable) items) as [parts | e'] eqn:Ht;
      simpl; [discriminate |].
    intros H. inversion H. subst e'.
    destruct (traverse_raised _ _ _ Ht) as (x & Hin & Hx).
    rewrite Forall_forall in IH. apply (IH x Hin e Hx).
  - match goal with
    | |- bind (traverse ?f items) _ = _ -> _ =>
        destruct (traverse f items) as [parts | e'] eqn:Ht
    end; simpl; [discriminate |].
    intros H. inversion H. subst e'.
    destruct (traverse_raised _ _ _ Ht) as ([k x] & Hin & Hx).
    rewrite Forall_forall in IH. specialize (IH (k, x) Hin e). simpl in IH.
    destruct (repr isprintable x) as [r | e'] eqn:Hr; simpl in Hx;
      [discriminate |].
    inversion Hx. subst e'. apply IH. reflexivity.
Qed.

Lemma to_str_raised (isprintable : N -> bool) (v : obj) (e : exn) :
  to_str isprintable v = Raise e -> exc_type e = ValueError.
Proof.
  destruct v; try apply repr_raised. discriminate.
Qed.



(** *** The paths through [_emit] *)

Lemma print_str (isprintable : N -> bool) (s : str) (file : stream)
    (c : console) :
  print isprintable (PyStr s) file c = (Return tt, write file (s ++ newline) c).
Proof. reflexivity. Qed.

Lemma emit_as_json (w : World) (payload : dict) (line : str) (c : console) :
  json_dumps (PyDict payload) = Return line ->
  _emit w payload (lit "json") c
  = (Return tt, write sys_stdout (line ++ newline) c).
Proof.
  intros H. unfold _emit.
  change (str_eqb (lit "json") (lit "json")) with true. cbv beta iota.
  unfold io_bind, lift. rewrite H. apply print_str.
Qed.

Lemma emit_text_message (w : World) (payload : dict) (f : str) (s : str)
    (c : console) :
  str_eqb f (lit "json") = false ->
  eq_str (dict_get payload (lit "status") PyNone) (lit "success") = true ->
  getitem payload (lit "message") = Return (PyStr s) ->
  _emit w payload f c = (Return tt, write sys_stdout (s ++ newline) c).
Proof.
  intros Hf Hstatus Hmessage. unfold _emit.
  rewrite Hf, Hstatus. unfold io_bind, lift. rewrite Hmessage.
  apply print_str.
Qed.

Lemma emit_text_error (w : World) (payload : dict) (f : str) (c : console) :
  str_eqb f (lit "json") = false ->
  eq_str (dict_get payload (lit "status") PyNone) (lit "success") = false ->
  _emit w payload f c
  = match to_str (isprintable w)
            (dict_get payload (lit "message") (PyStr (lit "Unknown error")))
    with
    | Return message =>
        (Return tt,
         write sys_stderr (lit "Error: " ++ message ++ newline) c)
    | Raise e => (Raise e, c)
    end.
Proof.
  intros Hf Hstatus. unfold _emit. rewrite Hf, Hstatus.
  unfold io_bind, lift.
  destruct (to_str (isprintable w) _) as [message | e]; [| reflexivity].
  rewrite print_str, <- app_assoc. reflexivity.
Qed.

Lemma success_message (p : IssPosition) :
  getitem (_success_response p) (lit "message")
  = Return (PyStr (lit "The ISS is currently at latitude "
                     ++ float_repr (latitude p) ++ lit " and longitude "
                     ++ float_repr (longitude p) ++ lit ".")).
Proof. reflexivity. Qed.

Lemma success_json (p : IssPosition) :
  json_dumps (PyDict (_success_response p))
  = Return (json_text (PyDict (_success_response p))).
Proof. reflexivity. Qed.

Lemma error_json (m : str) :
  json_dumps (PyDict (_error_response m))
  = Return (lit "{" ++ quoted "status" ++ lit ": " ++ quoted "error"
              ++ lit ", " ++ quoted "message" ++ lit ": "
              ++ encode_basestring_ascii m ++ lit "}").
Proof.
  cbn [json_dumps _error_response traverse bind join].
  change (encode_basestring_ascii (lit "status")) with (quoted "status").
  change (encode_basestring_ascii (lit "error")) with (quoted "error").
  change (encode_basestring_ascii (lit "message")) with (quoted "message").
  rewrite <- !app_assoc. reflexivity.
Qed.

(** [emit] on a success, for any format string. *)
Lemma respond_success (w : World) (p : IssPosition) (f : str) (c : console) :
  respond w (Return p) f c
  = (Return 0,
     write sys_stdout
       ((if str_eqb f (lit "json")
         then json_text (PyDict (_success_response p))
         else lit "The ISS is currently at latitude "
                ++ float_repr (latitude p) ++ lit " and longitude "
                ++ float_repr (longitude p) ++ lit ".")
          ++ newline) c).
Proof.
  unfold respond, io_bind. destruct (str_eqb f (lit "json")) eqn:Hf.
  - apply str_eqb_eq in Hf. subst f.
    rewrite (emit_as_json w _ _ c (success_json p)). reflexivity.
  - rewrite (emit_text_message w (_success_response p) f _ c Hf eq_refl
               (success_message p)).
    reflexivity.
Qed.

(** [emit] on a failure whose message is text, for any format string. *)
Lemma respond_failure (w : World) (e : exn) (m : str) (f : str)
    (c : console) :
  isinstance e IssApiError = true ->
  to_str (isprintable w) (exc_arg e) = Return m ->
  respond w (Raise e) f c
  = (Return 1,
     if str_eqb f (lit "json")
     then write sys_stdout
            (lit "{" ++ quoted "status" ++ lit ": " ++ quoted "error"
               ++ lit ", " ++ quoted "message" ++ lit ": "
               ++ encode_basestring_ascii m ++ lit "}" ++ newline) c
     else write sys_stderr (lit "Error: " ++ m ++ newline) c).
Proof.
  intros He Hm. unfold respond. rewrite He.
  unfold io_bind at 1. unfold lift at 1. rewrite Hm.
  unfold io_bind. destruct (str_eqb f (lit "json")) eqn:Hf.
  - apply str_eqb_eq in Hf. subst f.
    rewrite (emit_as_json w _ _ c (error_json m)).
    rewrite <- !app_assoc. reflexivity.
  - rewrite (emit_text_error w (_error_response m) f c Hf eq_refl).
    reflexivity.
Qed.

(** When [str(exc)] raises in line 98, its [ValueError] leaves [main]. *)
Lemma respond_unwritable (w : World) (e e' : exn) (f : str) (c : console) :
  isinstance e IssApiError = true ->
  to_str (isprintable w) (exc_arg e) = Raise e' ->
  respond w (Raise e) f c = (Raise e', c) /\ exc_type e' = ValueError.
Proof.
  intros He Hm. unfold respond. rewrite He.
  unfold io_bind, lift. rewrite Hm.
  split; [reflexivity | apply (to_str_raised _ _ _ Hm)].
Qed.

Lemma format_name_json : str_eqb (format_name json) (lit "json") = true.
Proof. reflexivity. Qed.

Lemma format_name_text : str_eqb (format_name text) (lit "json") = false.
Proof. reflexivity. Qed.

(** C4 (as amended).  [emit] on the success at latitude 51.6 and longitude
    -0.1 with format [json] returns 0 and writes to standard output one
    line: the object with the keys [status], [latitude], [longitude],
    [message] in that order, with [json.dumps]'s separators [", "] and
    [": "], then a newline.  Nothing goes to standard error. *)
Theorem emit_success_json (w : World) (c : console) :
  emit w (Success london) json c
  = (Return 0, mkConsole (stdout c ++ london_line ++ newline) (stderr c))
  /\ exit_status (fst (emit w (Success london) json c)) = 0.
Proof.
  unfold emit. cbn [fetched]. rewrite respond_success, format_name_json.
  assert (H : json_text (PyDict (_success_response london)) = london_line)
    by (vm_compute; reflexivity).
  rewrite H. split; reflexivity.
Qed.

(** C4 (as stated) fails: what is written is not the compact text. *)
Lemma emit_success_json_not_compact :
  emit (served london_payload) (Success london) json fresh
  = (Return 0, mkConsole (london_line ++ newline) [])
  /\ london_line ++ newline <> london_compact
  /\ stdout (snd (emit (served london_payload) (Success london) json fresh))
     <> london_compact.
Proof.
  assert (H : emit (served london_payload) (Success london) json fresh
              = (Return 0, mkConsole (london_line ++ newline) []))
    by (vm_compute; reflexivity).
  assert (Hne : london_line ++ newline <> london_compact)
    by (vm_compute; discriminate).
  split; [exact H |]. split; [exact Hne |].
  rewrite H. exact Hne.
Qed.

(** The same success with format [text]. *)
Example emit_success_text (w : World) (c : console) :
  emit w (Success london) text c
  = (Return 0,
     mkConsole
       (stdout c
          ++ lit "The ISS is currently at latitude 51.6 and longitude -0.1."
          ++ newline)
       (stderr c)).
Proof.
  unfold emit. cbn [fetched]. rewrite respond_success, format_name_text.
  assert (H : float_repr (latitude london) = lit "51.6"
              /\ float_repr (longitude london) = lit "-0.1")
    by (split; vm_compute; reflexivity).
  destruct H as [-> ->]. reflexivity.
Qed.

(** C5 (as amended).  For every message [m], [emit] on [Failure m] returns
    1.  With format [text] it writes ["Error: "], [m] and a newline to
    standard error and nothing to standard output.  With format [json] it
    writes to standard output, and nothing to standard error, the line
    [{"status": "error", "message": ...}] that [json.dumps] makes of the
    two-key object ([m] escaped to ASCII inside quotes), and a newline. *)
Theorem emit_failure (w : World) (m : str) (c : console) :
  emit w (Failure m) text c
  = (Return 1, mkConsole (stdout c) (stderr c ++ lit "Error: " ++ m ++ newline))
  /\ emit w (Failure m) json c
     = (Return 1,
        mkConsole
          (stdout c
             ++ json_text (PyDict [ (lit "status", PyStr (lit "error"));
                                    (lit "message", PyStr m) ])
             ++ newline)
          (stderr c))
  /\ json_dumps (PyDict [ (lit "status", PyStr (lit "error"));
                          (lit "message", PyStr m) ])
     = Return (lit "{" ++ quoted "status" ++ lit ": " ++ quoted "error"
                 ++ lit ", " ++ quoted "message" ++ lit ": "
                 ++ encode_basestring_ascii m ++ lit "}")
  /\ (forall f : output_format,
        exit_status (fst (emit w (Failure m) f c)) = 1).
Proof.
  unfold emit. cbn [fetched].
  rewrite !(respond_failure w (IssApiError_ m) m _ _ eq_refl eq_refl).
  rewrite format_name_json, format_name_text.
  split; [reflexivity |]. split; [| split].
  - pose proof (error_json m) as Hline. unfold _error_response in Hline.
    unfold json_text. rewrite Hline. unfold write. cbn [stdout stderr].
    rewrite <- !app_assoc. reflexivity.
  - apply (error_json m).
  - intros f.
    rewrite (respond_failure w (IssApiError_ m) m _ _ eq_refl eq_refl).
    reflexivity.
Qed.

(** C5 (as stated) fails at the message [x]: standard error receives
    [Error: x] and a newline, and standard output receives a text that is
    not the compact one. *)
Lemma emit_failure_not_verbatim :
  stderr (snd (emit (served london_payload) (Failure (lit "x")) text fresh))
    = lit "Error: x" ++ newline
  /\ stderr (snd (emit (served london_payload) (Failure (lit "x")) text fresh))
     <> lit "Error: x"
  /\ stdout (snd (emit (served london_payload) (Failure (lit "x")) json fresh))
     = lit "{" ++ quoted "status" ++ lit ": " ++ quoted "error" ++ lit ", "
         ++ quoted "message" ++ lit ": " ++ quoted "x" ++ lit "}" ++ newline
  /\ stdout (snd (emit (served london_payload) (Failure (lit "x")) json fresh))
     <> lit "{" ++ quoted "status" ++ lit ":" ++ quoted "error" ++ lit ","
          ++ quoted "message" ++ lit ":" ++ quoted "x" ++ lit "}".
Proof.
  split; [vm_compute; reflexivity |].
  split; [vm_compute; discriminate |].
  split; [vm_compute; reflexivity |].
  vm_compute; discriminate.
Qed.

(** C9.  [emit] writes to standard error in one case only, a failure with
    format [text], and then writes nothing to standard output; in the three
    other cases standard error is left as it was and the output goes to
    standard output. *)
Theorem emit_streams (w : World) (r : Result) (f : output_format)
    (c : console) :
  let c' := snd (emit w r f c) in
  match r, f with
  | Failure _, text =>
      stdout c' = stdout c
      /\ exists out, out <> [] /\ stderr c' = stderr c ++ out
  | _, _ =>
      stderr c' = stderr c
      /\ exists out, out <> [] /\ stdout c' = stdout c ++ out
  end.
Proof.
  unfold emit. destruct r as [p | m]; cbn [fetched].
  - rewrite respond_success.
    destruct f; (split; [reflexivity |]); eexists;
      (split; [apply line_not_empty | reflexivity]).
  - rewrite (respond_failure w (IssApiError_ m) m _ _ eq_refl eq_refl).
    destruct f; [rewrite format_name_text | rewrite format_name_json];
      (split; [reflexivity |]); eexists;
      (split; [| reflexivity]); discriminate.
Qed.




(** ** The exit status *)

Lemma main_parsed (w : World) (args : Namespace) (c : console) :
  _parse_args w = Return args ->
  main w c = respond w (fetch_current_position w (timeout args)) (format args) c.
Proof. intros H. unfold main, io_bind, lift. rewrite H. reflexivity. Qed.

Lemma main_not_parsed (w : World) (e : exn) (c : console) :
  _parse_args w = Raise e -> main w c = (Raise e, c).
Proof. intros H. unfold main, io_bind, lift. rewrite H. reflexivity. Qed.

(** C8 (as amended).  In a run whose command line the parser accepts, the
    exit status is 0 when the fetch succeeds and 1 when it does not, be it
    an [IssApiError] that [main] reports or another exception that ends the
    interpreter.  In a run whose command line the parser refuses, nothing is
    fetched and the exit status is the one of the parser's [SystemExit]: 2
    after a usage error. *)
Theorem run_exit_status (w : World) :
  (forall (args : Namespace) (p : IssPosition),
     _parse_args w = Return args ->
     fetch_current_position w (timeout args) = Return p ->
     run w = 0)
  /\ (forall (args : Namespace) (e : exn),
        _parse_args w = Return args ->
        fetch_current_position w (timeout args) = Raise e ->
        exc_type e <> SystemExit ->
        run w = 1)
  /\ (forall code : Z,
        _parse_args w = Raise (mkExn SystemExit (PyInt code)) ->
        run w = code).
Proof.
  unfold run. split; [| split].
  - intros args p Hargs Hfetch.
    rewrite (main_parsed _ _ _ Hargs), Hfetch, respond_success. reflexivity.
  - intros args e Hargs Hfetch Hclass.
    rewrite (main_parsed _ _ _ Hargs), Hfetch.
    destruct (isinstance e IssApiError) eqn:He.
    + destruct (to_str (isprintable w) (exc_arg e)) as [m | e'] eqn:Hm.
      * rewrite (respond_failure _ _ _ _ _ He Hm). reflexivity.
      * destruct (respond_unwritable w e e' (format args) fresh He Hm)
          as [-> Hvalue].
        cbn [fst]. apply uncaught_exit_status.
        rewrite Hvalue. discriminate.
    + unfold respond, lift. rewrite He. cbn [fst].
      apply (uncaught_exit_status _ Hclass).
  - intros code Hargs. rewrite (main_not_parsed _ _ _ Hargs). reflexivity.
Qed.

(** A run without arguments against a server that answers. *)
Lemma run_exit_status_witness :
  _parse_args (served london_payload) = Return defaults
  /\ run (served london_payload) = 0.
Proof.
  split; [reflexivity |].
  apply (proj1 (run_exit_status (served london_payload)) defaults london
           eq_refl eq_refl).
Defined.

(** C8 (as stated) fails on [--format xml]: the exit status is 2. *)
Lemma run_exits_with_2 :
  argv refused = [ lit "--format"; lit "xml" ]
  /\ run refused = 2
  /\ run refused <> 0
  /\ run refused <> 1.
Proof.
  split; [reflexivity |]. split; [reflexivity |].
  split; discriminate.
Qed.

(** ** Further properties of the fetch *)

Lemma fetch_by_request (w : World) (t : Z) :
  fetch_current_position w t =
    match request w t with
    | Raise exc =>
        if isinstance exc URLError || isinstance exc OSError
        then Raise (IssApiError_ REQUEST_FAILURE_MESSAGE)
        else Raise exc
    | Return payload => validate payload
    end.
Proof. reflexivity. Qed.

Lemma request_returned (w : World) (t : Z) (payload : obj) :
  request w t = Return payload ->
  exists body, urlopen_read w API_URL t = Return body
               /\ json_loads w body = Return payload.
Proof.
  unfold request. destruct (urlopen_read w API_URL t) as [body | e]; simpl.
  - intros H. exists body. split; [reflexivity | exact H].
  - discriminate.
Qed.

Lemma request_raised (w : World) (t : Z) (e : exn) :
  request w t = Raise e ->
  urlopen_read w API_URL t = Raise e
  \/ exists body, urlopen_read w API_URL t = Return body
                  /\ json_loads w body = Raise e.
Proof.
  unfold request. destruct (urlopen_read w API_URL t) as [body | e']; simpl.
  - intros H. right. exists body. split; [reflexivity | exact H].
  - intros H. left. inversion H. reflexivity.
Qed.

Lemma request_raises_own (w : World) (t : Z) (e : exn) :
  libraries_raise_their_own w t ->
  request w t = Raise e -> isinstance e IssApiError = false.
Proof.
  intros [Hurl Hjson] H.
  destruct (request_raised _ _ _ H) as [Hr | (body & _ & Hr)].
  - apply (Hurl _ Hr).
  - apply (Hjson _ _ Hr).
Qed.

(** An [IssApiError] and nothing else is an instance of [IssApiError]. *)
Lemma isinstance_IssApiError (e : exn) :
  isinstance e IssApiError = true <-> exc_type e = IssApiError.
Proof.
  unfold isinstance. split.
  - destruct (exc_type e); try discriminate; reflexivity.
  - intros ->. reflexivity.
Qed.

(** How [validate] can return. *)
Lemma validate_returned (v : obj) (p : IssPosition) :
  validate v = Return p ->
  exists (d : dict) (x y : number),
    v = PyDict d
    /\ as_int_or_float (dict_get d (lit "latitude") PyNone) = Some x
    /\ as_int_or_float (dict_get d (lit "longitude") PyNone) = Some y
    /\ py_float x = Return (latitude p)
    /\ py_float y = Return (longitude p).
Proof.
  destruct v as [| b | n | f | s | items | d]; try discriminate.
  unfold validate. simpl.
  destruct (as_int_or_float (dict_get d (lit "latitude") PyNone))
    as [x |] eqn:Hx; [| discriminate].
  destruct (as_int_or_float (dict_get d (lit "longitude") PyNone))
    as [y |] eqn:Hy; [| discriminate].
  destruct (py_float x) as [fx | ex] eqn:Hfx; [| discriminate].
  destruct (py_float y) as [fy | ey] eqn:Hfy; [| discriminate].
  simpl. intros H. inversion H. simpl.
  exists d, x, y. auto.
Qed.

(** How [validate] can raise. *)
Lemma validate_raised (v : obj) (e : exn) :
  validate v = Raise e ->
  (exc_type e = AttributeError /\ forall d, v <> PyDict d)
  \/ (exists d, v = PyDict d
                /\ e = IssApiError_ INVALID_COORDS_MESSAGE
                /\ (isinstance_int_float (dict_get d (lit "latitude") PyNone)
                    = false
                    \/ isinstance_int_float
                         (dict_get d (lit "longitude") PyNone) = false))
  \/ (exists d, v = PyDict d
                /\ exc_type e = OverflowError
                /\ isinstance_int_float (dict_get d (lit "latitude") PyNone)
                   = true
                /\ isinstance_int_float (dict_get d (lit "longitude") PyNone)
                   = true).
Proof.
  destruct v as [| b | n | f | s | items | d];
    try (intros H; inversion H; left; split; [reflexivity | discriminate]).
  unfold validate. simpl. unfold isinstance_int_float.
  destruct (as_int_or_float (dict_get d (lit "latitude") PyNone))
    as [x |] eqn:Hx.
  - destruct (as_int_or_float (dict_get d (lit "longitude") PyNone))
      as [y |] eqn:Hy.
    + intros H. right. right. exists d. rewrite Hx, Hy.
      split; [reflexivity |]. split; [| split; reflexivity].
      destruct (py_float x) as [fx | ex] eqn:Hfx.
      * destruct (py_float y) as [fy | ey] eqn:Hfy; [discriminate |].
        simpl in H. inversion H. subst ey.
        apply (py_float_raises_overflow _ _ Hfy).
      * simpl in H. inversion H. subst ex.
        apply (py_float_raises_overflow _ _ Hfx).
    + intros H. inversion H. right. left. exists d. rewrite Hy. auto.
  - intros H. inversion H. right. left. exists d. rewrite Hx. auto.
Qed.

(** Under [libraries_raise_their_own], an [IssApiError] out of the fetch is
    one of the two that the fetch itself raises. *)
Lemma fetch_raised_IssApiError (w : World) (t : Z) (e : exn) :
  libraries_raise_their_own w t ->
  fetch_current_position w t = Raise e ->
  isinstance e IssApiError = true ->
  (e = IssApiError_ REQUEST_FAILURE_MESSAGE
   /\ exists cause, request w t = Raise cause
                    /\ isinstance cause URLError || isinstance cause OSError
                       = true)
  \/ (e = IssApiError_ INVALID_COORDS_MESSAGE
      /\ exists body d,
           urlopen_read w API_URL t = Return body
           /\ json_loads w body = Return (PyDict d)
           /\ (isinstance_int_float (dict_get d (lit "latitude") PyNone)
               = false
               \/ isinstance_int_float (dict_get d (lit "longitude") PyNone)
                  = false)).
Proof.
  intros Hown Hfetch He. rewrite fetch_by_request in Hfetch.
  destruct (request w t) as [payload | cause] eqn:Hreq.
  - right.
    destruct (request_returned _ _ _ Hreq) as (body & Hbody & Hloads).
    destruct (validate_raised _ _ Hfetch)
      as [[Hattr _] | [(d & -> & -> & Hnum) | (d & _ & Hover & _)]].
    + apply isinstance_IssApiError in He. congruence.
    + split; [reflexivity |]. exists body, d. auto.
    + apply isinstance_IssApiError in He. congruence.
  - destruct (isinstance cause URLError || isinstance cause OSError) eqn:Hc.
    + left. inversion Hfetch. split; [reflexivity |]. exists cause. auto.
    + inversion Hfetch. subst cause.
      rewrite (request_raises_own _ _ _ Hown Hreq) in He. discriminate.
Qed.

(** X1.  A payload that is not an object (a list, a string, a number, a
    boolean, null) makes [payload.get] raise [AttributeError]: the fetch
    returns no [Result], and [main] prints nothing and lets it through. *)
Theorem fetch_non_object_payload (w : World) (t : Z) (body : bytes)
    (v : obj) :
  urlopen_read w API_URL t = Return body ->
  json_loads w body = Return v ->
  (forall d, v <> PyDict d) ->
  exists e,
    exc_type e = AttributeError
    /\ fetch_current_position w t = Raise e
    /\ (forall r : Result, fetch_current_position w t <> fetched r)
    /\ (forall (f : str) (c : console),
          respond w (fetch_current_position w t) f c = (Raise e, c)).
Proof.
  intros Hbody Hloads Hv.
  assert (Hreq : request w t = Return v)
    by (unfold request; rewrite Hbody; exact Hloads).
  rewrite fetch_by_request, Hreq.
  destruct v as [| b | n | f | s | items | d];
    try (eexists; split; [| split; [reflexivity | split]];
         [reflexivity
         | intros [p | m]; discriminate
         | intros f' c; reflexivity]).
  exfalso. apply (Hv d). reflexivity.
Qed.

(** The server answers with the empty list. *)
Lemma fetch_non_object_payload_witness :
  exists e,
    exc_type e = AttributeError
    /\ fetch_current_position (served (PyList [])) 15 = Raise e.
Proof.
  destruct (fetch_non_object_payload (served (PyList [])) 15
              (ascii_bytes (json_text (PyList []))) (PyList [])
              eq_refl eq_refl ltac:(discriminate))
    as (e & Hclass & Hfetch & _).
  exists e. split; assumption.
Defined.

(** X2.  The fetch succeeds only when the request was answered, the body
    was parsed to an object, both coordinates passed the [isinstance] test
    and the position holds their conversions: it never makes up a
    coordinate. *)
Theorem fetch_success_inversion (w : World) (t : Z) (p : IssPosition) :
  fetch_current_position w t = Return p ->
  exists (body : bytes) (d : dict) (x y : number),
    urlopen_read w API_URL t = Return body
    /\ json_loads w body = Return (PyDict d)
    /\ as_int_or_float (dict_get d (lit "latitude") PyNone) = Some x
    /\ as_int_or_float (dict_get d (lit "longitude") PyNone) = Some y
    /\ py_float x = Return (latitude p)
    /\ py_float y = Return (longitude p).
Proof.
  intros Hfetch. rewrite fetch_by_request in Hfetch.
  destruct (request w t) as [payload | cause] eqn:Hreq.
  - destruct (request_returned _ _ _ Hreq) as (body & Hbody & Hloads).
    destruct (validate_returned _ _ Hfetch) as (d & x & y & -> & H).
    exists body, d, x, y. auto.
  - destruct (_ || _); discriminate.
Qed.

(** The payload [{"latitude": 51.6, "longitude": -0.1}]. *)
Lemma fetch_success_inversion_witness :
  exists (d : dict) (x y : number),
    as_int_or_float (dict_get d (lit "latitude") PyNone) = Some x
    /\ as_int_or_float (dict_get d (lit "longitude") PyNone) = Some y
    /\ py_float x = Return (latitude london)
    /\ py_float y = Return (longitude london).
Proof.
  destruct (fetch_success_inversion (served london_payload) 15 london eq_refl)
    as (body & d & x & y & _ & _ & H).
  exists d, x, y. exact H.
Defined.

(** X3.  As long as the library calls raise exceptions of their own, the
    message of a [Failure] tells its cause: the request-failure message
    means that the request or the parsing raised a [URLError] or an
    [OSError]; the invalid-coordinates message means that the request was
    answered with an object in which a coordinate is not a number.  No
    other message leaves the fetch. *)
Theorem fetch_failure_causes (w : World) (t : Z) (m : str) :
  libraries_raise_their_own w t ->
  fetch_current_position w t = fetched (Failure m) ->
  (m = REQUEST_FAILURE_MESSAGE
   /\ exists cause, request w t = Raise cause
                    /\ isinstance cause URLError || isinstance cause OSError
                       = true)
  \/ (m = INVALID_COORDS_MESSAGE
      /\ exists body d,
           urlopen_read w API_URL t = Return body
           /\ json_loads w body = Return (PyDict d)
           /\ (isinstance_int_float (dict_get d (lit "latitude") PyNone)
               = false
               \/ isinstance_int_float (dict_get d (lit "longitude") PyNone)
                  = false)).
Proof.
  intros Hown Hfetch.
  destruct (fetch_raised_IssApiError w t _ Hown Hfetch eq_refl)
    as [[He H] | [He H]]; inversion He; [left | right]; auto.
Qed.

(** A server that answers raises nothing. *)
Lemma served_raises_its_own (payload : obj) (t : Z) :
  libraries_raise_their_own (served payload) t.
Proof. split; [intros e H | intros body e H]; discriminate H. Qed.

(** The server answers with the empty object. *)
Lemma fetch_failure_causes_witness :
  fetch_current_position (served (PyDict [])) 15
    = fetched (Failure INVALID_COORDS_MESSAGE)
  /\ exists body d,
       urlopen_read (served (PyDict [])) API_URL 15 = Return body
       /\ json_loads (served (PyDict [])) body = Return (PyDict d)
       /\ (isinstance_int_float (dict_get d (lit "latitude") PyNone) = false
           \/ isinstance_int_float (dict_get d (lit "longitude") PyNone)
              = false).
Proof.
  split; [reflexivity |].
  destruct (fetch_failure_causes (served (PyDict [])) 15
              INVALID_COORDS_MESSAGE
              (served_raises_its_own (PyDict []) 15) eq_refl)
    as [[Hm _] | [_ H]]; [discriminate Hm | exact H].
Defined.

(** X4.  An exception other than [IssApiError] that leaves the fetch is of
    one of three kinds: an exception of the request or of the parsing that
    is neither a [URLError] nor an [OSError], passed on unchanged; the
    [AttributeError] of a payload that is not an object; the
    [OverflowError] of an [int] coordinate beyond the float range. *)
Theorem fetch_crash_causes (w : World) (t : Z) (e : exn) :
  fetch_current_position w t = Raise e ->
  isinstance e IssApiError = false ->
  (request w t = Raise e
   /\ isinstance e URLError = false /\ isinstance e OSError = false)
  \/ (exc_type e = AttributeError
      /\ exists v, request w t = Return v /\ forall d, v <> PyDict d)
  \/ (exc_type e = OverflowError
      /\ exists d, request w t = Return (PyDict d)
                   /\ isinstance_int_float
                        (dict_get d (lit "latitude") PyNone) = true
                   /\ isinstance_int_float
                        (dict_get d (lit "longitude") PyNone) = true).
Proof.
  intros Hfetch He. rewrite fetch_by_request in Hfetch.
  destruct (request w t) as [payload | cause] eqn:Hreq.
  - right.
    destruct (validate_raised _ _ Hfetch)
      as [[Hattr Hv] | [(d & _ & -> & _) | (d & -> & Hover & Hnum)]].
    + left. split; [exact Hattr |]. exists payload. auto.
    + discriminate He.
    + right. split; [exact Hover |]. exists d. auto.
  - left.
    destruct (isinstance cause URLError) eqn:Hu;
      destruct (isinstance cause OSError) eqn:Ho; simpl in Hfetch;
      inversion Hfetch; subst; try discriminate He.
    rewrite Hu, Ho. auto.
Qed.

(** The body that ends before its announced length. *)
Lemma fetch_crash_causes_witness :
  fetch_current_position cut_short 15 = Raise incomplete_read
  /\ request cut_short 15 = Raise incomplete_read.
Proof.
  split; [reflexivity |].
  destruct (fetch_crash_causes cut_short 15 incomplete_read eq_refl eq_refl)
    as [[H _] | [[H _] | [H _]]]; [exact H | discriminate H | discriminate H].
Defined.

(** X5.  The fetch reads the two coordinates and nothing else: two objects
    that agree on [latitude] and on [longitude] give the same outcome,
    whatever other keys they hold and in whatever order. *)
Theorem fetch_ignores_other_fields (w w' : World) (t t' : Z)
    (body body' : bytes) (d d' : dict) :
  urlopen_read w API_URL t = Return body ->
  json_loads w body = Return (PyDict d) ->
  urlopen_read w' API_URL t' = Return body' ->
  json_loads w' body' = Return (PyDict d') ->
  lookup d (lit "latitude") = lookup d' (lit "latitude") ->
  lookup d (lit "longitude") = lookup d' (lit "longitude") ->
  fetch_current_position w t = fetch_current_position w' t'.
Proof.
  intros Hbody Hloads Hbody' Hloads' Hlat Hlon.
  rewrite !fetch_by_request. unfold request.
  rewrite Hbody, Hbody'. simpl. rewrite Hloads, Hloads'.
  unfold validate, get, dict_get. rewrite Hlat, Hlon. reflexivity.
Qed.

(** The answer of the API, with its seven fields, against the object with
    the two coordinates alone. *)
Lemma fetch_ignores_other_fields_witness :
  fetch_current_position (served full_payload) 15 = Return london.
Proof.
  rewrite (fetch_ignores_other_fields (served full_payload)
             (served london_payload) 15 15
             (ascii_bytes (json_text full_payload))
             (ascii_bytes (json_text london_payload))
             _ _ eq_refl eq_refl eq_refl eq_refl eq_refl eq_refl).
  reflexivity.
Defined.

(** ** Further properties of the output *)

Lemma all_printable_app (a b : str) :
  all_printable (a ++ b) = all_printable a && all_printable b.
Proof. apply forallb_app. Qed.

Lemma all_printable_lit (s : string) :
  all_printable (lit s) = printable_string s.
Proof.
  unfold lit. induction s as [| a s IH]; simpl; [reflexivity |].
  rewrite <- IH. reflexivity.
Qed.

Lemma printable_string_append (a b : string) :
  printable_string (a ++ b) = printable_string a && printable_string b.
Proof.
  induction a as [| c a IH]; simpl; [reflexivity |].
  rewrite IH, andb_assoc. reflexivity.
Qed.

Lemma printable_string_substring (s : string) (n m : nat) :
  printable_string s = true -> printable_string (substring n m s) = true.
Proof.
  revert n m. induction s as [| c s IH]; intros n m H.
  - destruct n, m; reflexivity.
  - simpl in H. apply andb_true_iff in H as [Hc Hs].
    destruct n as [| n]; [destruct m as [| m] |]; simpl.
    + reflexivity.
    + rewrite Hc. apply IH, Hs.
    + apply IH, Hs.
Qed.

Lemma printable_string_zeros (n : nat) : printable_string (zeros n) = true.
Proof. induction n as [| n IH]; simpl; [reflexivity | exact IH]. Qed.

Lemma printable_string_of_uint (d : Decimal.uint) :
  printable_string (NilEmpty.string_of_uint d) = true.
Proof. induction d; simpl; try reflexivity; assumption. Qed.

Lemma printable_string_of_int (z : Z) :
  printable_string (NilZero.string_of_int (Z.to_int z)) = true.
Proof.
  unfold NilZero.string_of_int, NilZero.string_of_uint.
  destruct (Z.to_int z) as [d | d]; destruct d; simpl; try reflexivity;
    apply printable_string_of_uint.
Qed.

Lemma printable_exponent_text (x : Z) :
  printable_string (exponent_text x) = true.
Proof.
  unfold exponent_text. rewrite !printable_string_append.
  rewrite printable_string_of_int.
  destruct (x <? 0); destruct (_ <? 2)%nat; reflexivity.
Qed.

Lemma printable_layout (digits : string) (decpt : Z) :
  printable_string digits = true ->
  printable_string (layout digits decpt) = true.
Proof.
  intros H. unfold layout.
  destruct (_ || _); [| destruct (decpt <=? 0); [| destruct (_ <? _)%nat]];
    rewrite ?printable_string_append, ?printable_string_zeros,
      ?printable_exponent_text, ?H, ?(printable_string_substring _ _ _ H);
    try reflexivity.
  destruct (1 <? String.length digits)%nat;
    rewrite ?printable_string_append, ?(printable_string_substring _ _ _ H);
    reflexivity.
Qed.

(** The text of a float is printable ASCII. *)
Lemma printable_float_repr (f : float) : all_printable (float_repr f) = true.
Proof.
  unfold float_repr. rewrite all_printable_lit.
  destruct f as [[] | [] | | s m e]; try reflexivity.
  unfold float_repr_ascii, shortest_digits.
  destruct (shortest_from m e 17 _ 1) as [c q].
  destruct (strip_zeros 20 c q) as [c' q'].
  rewrite printable_string_append, printable_layout.
  - destruct s; reflexivity.
  - apply printable_string_of_int.
Qed.

Lemma printable_int_repr (z : Z) (line : str) :
  int_repr z = Return line -> all_printable line = true.
Proof.
  unfold int_repr. destruct (_ <? _)%nat; [discriminate |].
  intros H. inversion H. rewrite all_printable_lit.
  apply printable_string_of_int.
Qed.

Lemma printable_hexdigit (n : N) : printableb (hexdigit (N.land n 15)) = true.
Proof.
  assert (H : (N.land n 15 < 16)%N).
  { change 15%N with (N.ones 4). rewrite N.land_ones.
    apply N.mod_lt. discriminate. }
  unfold hexdigit, printableb.
  destruct (N.ltb_spec (N.land n 15) 10);
    apply andb_true_iff; split; apply N.leb_le; lia.
Qed.

Lemma printable_hex (width : nat) (n : N) : all_printable (hex width n) = true.
Proof.
  revert n. induction width as [| width IH]; intros n; simpl;
    [reflexivity |].
  rewrite all_printable_app, IH. simpl.
  rewrite printable_hexdigit. reflexivity.
Qed.

Lemma printable_escape_ascii (c : N) : all_printable (escape_ascii c) = true.
Proof.
  unfold escape_ascii.
  repeat match goal with
         | |- context [if ?b then _ else _] => destruct b eqn:?
         end;
    rewrite ?all_printable_app, ?printable_hex; try reflexivity.
  simpl. unfold printableb at 1.
  match goal with H : (_ && _) = true |- _ => rewrite H end. reflexivity.
Qed.

Lemma all_printable_flat_map (f : N -> str) (s : str) :
  (forall c, all_printable (f c) = true) ->
  all_printable (flat_map f s) = true.
Proof.
  intros H. induction s as [| c s IH]; simpl; [reflexivity |].
  rewrite all_printable_app, H, IH. reflexivity.
Qed.

(** A JSON string literal is printable ASCII, whatever the text. *)
Lemma printable_encode_basestring_ascii (s : str) :
  all_printable (encode_basestring_ascii s) = true.
Proof.
  unfold encode_basestring_ascii.
  rewrite !all_printable_app, (all_printable_flat_map _ _ printable_escape_ascii).
  reflexivity.
Qed.

Lemma printable_floatstr (f : float) : all_printable (floatstr f) = true.
Proof.
  destruct f as [s | [] | | s m e]; try reflexivity;
    apply printable_float_repr.
Qed.

Lemma all_printable_join (sep : str) (parts : list str) :
  all_printable sep = true ->
  Forall (fun p => all_printable p = true) parts ->
  all_printable (join sep parts) = true.
Proof.
  intros Hsep H. induction H as [| p parts Hp _ IH]; [reflexivity |].
  destruct parts as [| p' parts]; [exact Hp |].
  change (join sep (p :: p' :: parts)) with (p ++ sep ++ join sep (p' :: parts)).
  rewrite !all_printable_app, Hp, Hsep, IH. reflexivity.
Qed.

Lemma traverse_returned {A B : Type} (f : A -> result B) (Q : B -> Prop)
    (l : list A) (ys : list B) :
  Forall (fun x => forall y, f x = Return y -> Q y) l ->
  traverse f l = Return ys -> Forall Q ys.
Proof.
  intros H. revert ys. induction H as [| x l Hx _ IH]; intros ys; simpl.
  - intros E. inversion E. constructor.
  - destruct (f x) as [y | e]; simpl; [| discriminate].
    destruct (traverse f l) as [ys' | e]; simpl; [| discriminate].
    intros E. inversion E. constructor; [apply Hx; reflexivity |].
    apply IH. reflexivity.
Qed.

Lemma Return_inj {A : Type} (a b : A) : Return a = Return b -> a = b.
Proof. intros H. injection H as H. exact H. Qed.

Lemma bind_returned {A B : Type} (r : result A) (k : A -> result B) (b : B) :
  bind r k = Return b -> exists a, r = Return a /\ k a = Return b.
Proof.
  destruct r as [a | e]; [| discriminate].
  intros H. exists a. split; [reflexivity | exact H].
Qed.

(** With [ensure_ascii=True], what [json.dumps] returns is printable
    ASCII. *)
Lemma printable_json_dumps (v : obj) (line : str) :
  json_dumps v = Return line -> all_printable line = true.
Proof.
  revert line.
  induction v as [| [] | n | f | s | items IH | items IH]
    using obj_nested_ind; intros line; cbn [json_dumps];
    try (intros H; apply Return_inj in H; subst line; reflexivity).
  - apply printable_int_repr.
  - intros H. apply Return_inj in H. subst line. apply printable_floatstr.
  - intros H. apply Return_inj in H. subst line.
    apply printable_encode_basestring_ascii.
  - intros H. apply bind_returned in H as (parts & Ht & H).
    apply Return_inj in H. subst line.
    rewrite !all_printable_app, all_printable_join; try reflexivity.
    apply (traverse_returned json_dumps _ items parts); [| exact Ht].
    exact IH.
  - intros H. apply bind_returned in H as (parts & Ht & H).
    apply Return_inj in H. subst line.
    rewrite !all_printable_app, all_printable_join; try reflexivity.
    refine (traverse_returned _ _ items parts _ Ht).
    apply (Forall_impl _ (P := fun kv => forall line,
                              json_dumps (snd kv) = Return line ->
                              all_printable line = true)); [| exact IH].
    intros [k x] Hx part H. cbn [snd] in Hx.
    apply bind_returned in H as (r & Hr & H).
    apply Return_inj in H. subst part.
    rewrite !all_printable_app, printable_encode_basestring_ascii,
      (Hx r Hr).
    reflexivity.
Qed.


Lemma all_printable_In (s : str) (c : N) :
  all_printable s = true -> In c s -> (32 <= c <= 126)%N.
Proof.
  intros H Hc. unfold all_printable in H. rewrite forallb_forall in H.
  specialize (H c Hc). unfold printableb in H.
  apply andb_true_iff in H as [H1 H2].
  apply N.leb_le in H1, H2. split; assumption.
Qed.

(** X6.  With format [json], [_emit] writes one line of printable ASCII to
    standard output and nothing to standard error, whatever the payload
    holds: every character before the final newline lies between the space
    and the tilde, so a message beyond ASCII, or with line feeds in it,
    arrives escaped and on one line. *)
Theorem emit_json_one_ascii_line (w : World) (payload : dict) (line : str)
    (c : console) :
  json_dumps (PyDict payload) = Return line ->
  _emit w payload (lit "json") c
  = (Return tt, mkConsole (stdout c ++ line ++ newline) (stderr c))
  /\ (forall ch, In ch line -> (32 <= ch <= 126)%N)
  /\ ~ In 10%N line.
Proof.
  intros H. split; [apply (emit_as_json w payload line c H) |].
  pose proof (printable_json_dumps _ _ H) as Hp.
  split.
  - intros ch. apply (all_printable_In _ _ Hp).
  - intros Hin. pose proof (all_printable_In _ _ Hp Hin). lia.
Qed.

(** The error response for a message with an accent, a line feed, a quote
    and an emoji. *)
Lemma emit_json_one_ascii_line_witness :
  _emit (served london_payload) (_error_response accented) (lit "json") fresh
  = (Return tt,
     mkConsole
       (lit "{" ++ quoted "status" ++ lit ": " ++ quoted "error" ++ lit ", "
          ++ quoted "message" ++ lit ": " ++ dquote
          ++ lit "\u00e9\n\" ++ dquote ++ lit "\ud83d\ude00" ++ dquote
          ++ lit "}" ++ newline)
       []).
Proof.
  apply (proj1 (emit_json_one_ascii_line (served london_payload)
                  (_error_response accented) _ fresh eq_refl)).
Defined.

(** X7.  With format [text], a payload whose status is ["success"] and
    that has no [message] makes line 86 raise [KeyError('message')], and
    nothing is written: the subscript of line 86 has no default, unlike the
    [get] of line 89. *)
Theorem emit_text_success_without_message (w : World) (payload : dict)
    (f : str) (c : console) :
  f <> lit "json" ->
  lookup payload (lit "status") = Some (PyStr (lit "success")) ->
  lookup payload (lit "message") = None ->
  _emit w payload f c = (Raise (mkExn KeyError (PyStr (lit "message"))), c).
Proof.
  intros Hf Hstatus Hmessage. unfold _emit.
  destruct (str_eqb f (lit "json")) eqn:E;
    [apply str_eqb_eq in E; contradiction |].
  rewrite (dict_get_lookup _ _ _ _ Hstatus).
  change (eq_str (PyStr (lit "success")) (lit "success")) with true.
  cbv beta iota. unfold io_bind, lift, getitem. rewrite Hmessage.
  reflexivity.
Qed.

Lemma emit_text_success_without_message_witness :
  _emit (served london_payload) success_without_message (lit "text") fresh
  = (Raise (mkExn KeyError (PyStr (lit "message"))), fresh).
Proof.
  apply (emit_text_success_without_message (served london_payload)
           success_without_message (lit "text") fresh
           ltac:(discriminate) eq_refl eq_refl).
Defined.



(** X9.  On a success [main] cannot fail to answer.  For every position,
    an infinity or a NaN included, and either format, [emit] returns 0 and
    writes to standard output one line of printable ASCII: with format
    [text] the value under [message] of the response, with format [json]
    what [json.dumps] makes of the response.  Standard error is left as it
    was. *)
Theorem emit_success_any_position (w : World) (p : IssPosition)
    (f : output_format) (c : console) :
  exists line : str,
    emit w (Success p) f c
    = (Return 0, mkConsole (stdout c ++ line ++ newline) (stderr c))
    /\ (forall ch, In ch line -> (32 <= ch <= 126)%N)
    /\ match f with
       | text =>
           lookup (_success_response p) (lit "message") = Some (PyStr line)
       | json => json_dumps (PyDict (_success_response p)) = Return line
       end.
Proof.
  unfold emit. cbn [fetched]. rewrite respond_success.
  destruct f.
  - rewrite format_name_text. eexists. split; [reflexivity |].
    split; [| reflexivity].
    intros ch. apply all_printable_In.
    rewrite !all_printable_app, !printable_float_repr. reflexivity.
  - rewrite format_name_json. eexists. split; [reflexivity |].
    split; [| apply success_json].
    intros ch. apply all_printable_In.
    apply (printable_json_dumps _ _ (success_json p)).
Qed.

(** X10.  A run ends with status 0 in three cases only: the command line
    was accepted and the fetch returned a position; the parser itself left
    with status 0, as it does after [--help]; or a library call of the
    fetch raised a [SystemExit].  A failure that [main] reports never ends
    with status 0. *)
Theorem run_status_zero (w : World) :
  run w = 0 ->
  (exists (args : Namespace) (p : IssPosition),
     _parse_args w = Return args
     /\ fetch_current_position w (timeout args) = Return p)
  \/ (exists e : exn,
        _parse_args w = Raise e /\ exit_status (Raise e) = 0)
  \/ (exists (args : Namespace) (e : exn),
        _parse_args w = Return args
        /\ fetch_current_position w (timeout args) = Raise e
        /\ request w (timeout args) = Raise e
        /\ exc_type e = SystemExit).
Proof.
  unfold run. destruct (_parse_args w) as [args | e] eqn:Hargs.
  - rewrite (main_parsed _ _ _ Hargs).
    destruct (fetch_current_position w (timeout args)) as [p | e] eqn:Hfetch.
    + intros _. left. exists args, p. split; [reflexivity | exact Hfetch].
    + destruct (isinstance e IssApiError) eqn:He.
      * destruct (to_str (isprintable w) (exc_arg e)) as [m | e'] eqn:Hm.
        -- rewrite (respond_failure _ _ _ _ _ He Hm). discriminate.
        -- destruct (respond_unwritable w e e' (format args) fresh He Hm)
             as [-> Hvalue].
           cbn [fst]. rewrite uncaught_exit_status; [discriminate |].
           rewrite Hvalue. discriminate.
      * unfold respond, lift. rewrite He. cbn [fst]. intros Hzero.
        right. right. exists args, e.
        destruct (exc_class_eq_dec (exc_type e) SystemExit) as [Hc | Hc];
          [| rewrite (uncaught_exit_status _ Hc) in Hzero; discriminate].
        split; [reflexivity |]. split; [exact Hfetch |]. split; [| exact Hc].
        rewrite fetch_by_request in Hfetch.
        destruct (request w (timeout args)) as [payload | cause];
          [| destruct (_ || _); inversion Hfetch; [| reflexivity];
             subst e; discriminate Hc].
        destruct (validate_raised _ _ Hfetch)
          as [[H _] | [(d & _ & -> & _) | (d & _ & H & _)]];
          [congruence | discriminate Hc | congruence].
  - rewrite (main_not_parsed _ _ _ Hargs). cbn [fst]. intros Hzero.
    right. left. exists e. split; [reflexivity | exact Hzero].
Qed.

(** A run without arguments against a server that answers. *)
Lemma run_status_zero_witness :
  run (served london_payload) = 0
  /\ exists (args : Namespace) (p : IssPosition),
       _parse_args (served london_payload) = Return args
       /\ fetch_current_position (served london_payload) (timeout args)
          = Return p.
Proof.
  split; [reflexivity |].
  destruct (run_status_zero (served london_payload) eq_refl)
    as [H | [(e & H & _) | (args & e & H & Hfetch & _)]];
    [exact H | discriminate H | ].
  exfalso. change (Return defaults = Return args) in H.
  injection H as <-.
  change (Return london = Raise e) in Hfetch. discriminate Hfetch.
Defined.
